(** * The [cors_origin] audit plugin of w3af

    A shallow embedding of [plugins/audit/cors_origin.py] and the properties
    of its rule engine and of its report throttle ([_filter_report]).

    Python values are modelled as follows.
    - [str] is [string] (byte strings, ASCII case mapping and whitespace);
      [None] is the [None] of an [option].
    - [int] is [Z].
    - the [set] of already summarised sections is a [gset string].
    - the plugin instance, the knowledge base and the output manager form
      one explicit [State]; methods are computations in a small state and
      exception monad [M]. *)

From Stdlib Require Import ZArith Ascii.
From stdpp Require Import gmap strings list pretty.

Local Open Scope Z_scope.

(** ** Python string operations used by the plugin *)

Module Py.

Definition char_lower (c : ascii) : ascii :=
  let n := N_of_ascii c in
  if ((65 <=? n) && (n <=? 90))%N then ascii_of_N (n + 32) else c.

Definition char_upper (c : ascii) : ascii :=
  let n := N_of_ascii c in
  if ((97 <=? n) && (n <=? 122))%N then ascii_of_N (n - 32) else c.

(** [s.lower()] *)
Fixpoint lower (s : string) : string :=
  match s with
  | EmptyString => EmptyString
  | String c r => String (char_lower c) (lower r)
  end.

(** [s.upper()] *)
Fixpoint upper (s : string) : string :=
  match s with
  | EmptyString => EmptyString
  | String c r => String (char_upper c) (upper r)
  end.

Fixpoint lstrip (s : string) : string :=
  match s with
  | EmptyString => EmptyString
  | String c r => if Ascii.is_space c then lstrip r else s
  end.

Fixpoint rstrip (s : string) : string :=
  match s with
  | EmptyString => EmptyString
  | String c r =>
      match rstrip r with
      | EmptyString => if Ascii.is_space c then EmptyString
                       else String c EmptyString
      | r' => String c r'
      end
  end.

(** [s.strip()]: leading and trailing whitespace removed. *)
Definition strip (s : string) : string := rstrip (lstrip s).

(** [s.split(sep)] for a one-character separator; never the empty list. *)
Fixpoint split (sep : ascii) (s : string) : list string :=
  match s with
  | EmptyString => [EmptyString]
  | String c r =>
      if Ascii.eqb c sep then EmptyString :: split sep r
      else match split sep r with
           | h :: t => String c h :: t
           | [] => [String c EmptyString]
           end
  end.

(** [sub in s]: [sub] occurs in [s] as a contiguous substring. *)
Fixpoint contains (sub s : string) : bool :=
  String.prefix sub s ||
  match s with
  | EmptyString => false
  | String _ r => contains sub r
  end.

(** [sep.join(l)] *)
Fixpoint join (sep : string) (l : list string) : string :=
  match l with
  | [] => EmptyString
  | [x] => x
  | x :: r => x +:+ sep +:+ join sep r
  end.

(** *** The [%] operator

    [template % args] where every argument is already a string, as
    CPython 2 evaluates it.  After a percent sign come flags, a width, a
    precision and a length modifier, all optional, then the conversion.
    Two conversions are given a result: [s] written directly after the
    percent sign takes the next argument, and [%] writes a percent sign,
    padded to the width and taking no argument.  [None] stands for the
    [TypeError] or [ValueError] of every other case: a [*] width or
    precision (it wants an integer argument), a mapping key, an unknown
    conversion, a template that ends inside a directive, too few or too
    many arguments.  It also covers a conversion that would consume a
    string argument in another way (such as [%5s] or [%r]): the constant
    templates of the plugin have none, and where a template holds request
    data it ends with as many [%s] of its own as there are arguments, so
    that Python runs out of arguments and raises there as well.  Field
    widths are natural numbers without an upper limit. *)

Inductive Directive : Set :=
| Flags (ljust plain : bool)
| WidthDigits (ljust : bool) (width : nat)
| PrecStart (ljust : bool) (width : nat)
| PrecDigits (ljust : bool) (width : nat)
| Conv (ljust : bool) (width : nat).

Inductive Action : Set :=
| Next (d : Directive)
| Emit (s : string)
| TakeArg
| Fail.

Definition is_digit (c : ascii) : bool :=
  let n := N_of_ascii c in ((48 <=? n) && (n <=? 57))%N.

Definition digit_value (c : ascii) : nat := N.to_nat (N_of_ascii c - 48).

Definition is_flag (c : ascii) : bool :=
  match c with
  | "-" | "+" | " " | "#" | "0" => true
  | _ => false
  end%char.

Fixpoint spaces (n : nat) : string :=
  match n with
  | O => EmptyString
  | S n' => String " " (spaces n')
  end.

(** A percent sign in a field of [width] characters. *)
Definition padded_percent (ljust : bool) (width : nat) : string :=
  if ljust then String "%" (spaces (width - 1))
  else spaces (width - 1) +:+ "%".

Definition conv_step (ljust : bool) (width : nat) (plain : bool)
    (c : ascii) : Action :=
  if Ascii.eqb c "%" then Emit (padded_percent ljust width)
  else if Ascii.eqb c "s" && plain then TakeArg
  else Fail.

Definition len_step (ljust : bool) (width : nat) (plain : bool)
    (c : ascii) : Action :=
  if Ascii.eqb c "h" || Ascii.eqb c "l" || Ascii.eqb c "L"
  then Next (Conv ljust width)
  else conv_step ljust width plain c.

Definition dot_step (ljust : bool) (width : nat) (plain : bool)
    (c : ascii) : Action :=
  if Ascii.eqb c "." then Next (PrecStart ljust width)
  else len_step ljust width plain c.

Definition directive_step (d : Directive) (c : ascii) : Action :=
  match d with
  | Flags ljust plain =>
      if is_flag c then Next (Flags (ljust || Ascii.eqb c "-") false)
      else if Ascii.eqb c "*" then Fail
      else if is_digit c then Next (WidthDigits ljust (digit_value c))
      else dot_step ljust 0 plain c
  | WidthDigits ljust width =>
      if is_digit c then Next (WidthDigits ljust (10 * width + digit_value c))
      else dot_step ljust width false c
  | PrecStart ljust width =>
      if Ascii.eqb c "*" then Fail
      else if is_digit c then Next (PrecDigits ljust width)
      else len_step ljust width false c
  | PrecDigits ljust width =>
      if is_digit c then Next (PrecDigits ljust width)
      else len_step ljust width false c
  | Conv ljust width => conv_step ljust width false c
  end.

(** [d] is the directive being read, [None] between directives. *)
Fixpoint format_from (d : option Directive) (template : string)
    (args : list string) : option string :=
  match template with
  | EmptyString =>
      match d, args with
      | None, [] => Some EmptyString
      | _, _ => None
      end
  | String c r =>
      match d with
      | None =>
          if Ascii.eqb c "%" then format_from (Some (Flags false true)) r args
          else String c <$> format_from None r args
      | Some d =>
          match directive_step d c with
          | Next d' => format_from (Some d') r args
          | Emit s => String.app s <$> format_from None r args
          | TakeArg =>
              match args with
              | a :: args' => String.app a <$> format_from None r args'
              | [] => None
              end
          | Fail => None
          end
      end
  end.

Definition format (template : string) (args : list string) : option string :=
  format_from None template args.

End Py.

(** ** Data model *)

(** Modelled from the spec: the constants of [core.data.constants.severity],
    a closed set of four levels. *)
Inductive Severity : Set := INFORMATION | LOW | MEDIUM | HIGH.

Global Instance Severity_eq_dec : EqDecision Severity.
Proof. solve_decision. Defined.

(** Modelled from the spec: the header name [ACCESS_CONTROL_ALLOW_ORIGIN]
    exported by [core.controllers.cors.utils]. *)
Definition ACCESS_CONTROL_ALLOW_ORIGIN : string := "Access-Control-Allow-Origin".

(** Modelled from the spec: the header name [ACCESS_CONTROL_ALLOW_METHODS]
    exported by [core.controllers.cors.utils]. *)
Definition ACCESS_CONTROL_ALLOW_METHODS : string := "Access-Control-Allow-Methods".

(** Modelled from the spec: the header name
    [ACCESS_CONTROL_ALLOW_CREDENTIALS] exported by
    [core.controllers.cors.utils]. *)
Definition ACCESS_CONTROL_ALLOW_CREDENTIALS : string :=
  "Access-Control-Allow-Credentials".

(** A [vuln.vuln()] object after its five setters have run. *)
Record Vuln : Set := mkVuln {
  getURL : string;
  getId : Z;
  getSeverity : Severity;
  getName : string;
  getDesc : string
}.

Global Instance Vuln_eq_dec : EqDecision Vuln.
Proof. solve_decision. Defined.

(** What the plugin reads of the forged request and of the response. *)
Record Request : Set := mkRequest { req_getURL : string }.
Record Response : Set := mkResponse { resp_getId : Z }.

(** The names [_filter_report] is given for [getattr]/[setattr]. *)
Inductive CounterAttr : Set :=
| universal_allow_counter
| origin_echo_counter
| universal_origin_allow_creds_counter
| allow_methods_counter.

Global Instance CounterAttr_eq_dec : EqDecision CounterAttr.
Proof. solve_decision. Defined.

(** The plugin instance together with the two global sinks it writes to:
    the list kept by [kb.kb] under [(self, 'cors_origin')] and the messages
    passed to [om.out.vulnerability]. *)
Record State : Type := mkState {
  origin_header_value : option string;
  _reported_global : gset string;
  _universal_allow_counter : Z;
  _origin_echo_counter : Z;
  _universal_origin_allow_creds_counter : Z;
  _allow_methods_counter : Z;
  kb_cors_origin : list Vuln;
  om_vulnerability : list string
}.

(** The exceptions of the plugin: its own [w3afException], and the
    [TypeError] or [ValueError] of a failed [%]. *)
Inductive Exception : Set :=
| w3afException (msg : string)
| FormatError.

Inductive Outcome (A : Type) : Type :=
| Return (a : A)
| Raise (e : Exception).
Arguments Return {A} a.
Arguments Raise {A} e.

(** A method: it reads and updates the state and returns or raises. *)
Definition M (A : Type) : Type := State -> Outcome A * State.

Global Instance M_ret : MRet M := fun A a st => (Return a, st).
Global Instance M_bind : MBind M := fun A B k m st =>
  match m st with
  | (Return a, st') => k a st'
  | (Raise e, st') => (Raise e, st')
  end.
Definition raise {A} (e : Exception) : M A := fun st => (Raise e, st).

Definition MAX_REPEATED_REPORTS : Z := 3.
Definition SENSITIVE_METHODS : list string := ["PUT"; "DELETE"].
Definition COMMON_METHODS : list string :=
  ["POST"; "GET"; "OPTIONS"; "PUT"; "DELETE"].

(** [__init__] *)
Definition __init__ : State := {|
  origin_header_value := Some "http://w3af.sourceforge.net/";
  _reported_global := ∅;
  _universal_allow_counter := 0;
  _origin_echo_counter := 0;
  _universal_origin_allow_creds_counter := 0;
  _allow_methods_counter := 0;
  kb_cors_origin := [];
  om_vulnerability := []
|}.

(** ** Primitive effects *)

Definition counter_value (st : State) (counter : CounterAttr) : Z :=
  match counter with
  | universal_allow_counter => _universal_allow_counter st
  | origin_echo_counter => _origin_echo_counter st
  | universal_origin_allow_creds_counter =>
      _universal_origin_allow_creds_counter st
  | allow_methods_counter => _allow_methods_counter st
  end.

Definition set_counter (st : State) (counter : CounterAttr) (n : Z) : State :=
  mkState (origin_header_value st) (_reported_global st)
    (if decide (counter = universal_allow_counter) then n
     else _universal_allow_counter st)
    (if decide (counter = origin_echo_counter) then n
     else _origin_echo_counter st)
    (if decide (counter = universal_origin_allow_creds_counter) then n
     else _universal_origin_allow_creds_counter st)
    (if decide (counter = allow_methods_counter) then n
     else _allow_methods_counter st)
    (kb_cors_origin st) (om_vulnerability st).

(** [getattr(self, counter)] and [setattr(self, counter, n)] *)
Definition getattr (counter : CounterAttr) : M Z :=
  fun st => (Return (counter_value st counter), st).
Definition setattr (counter : CounterAttr) (n : Z) : M unit :=
  fun st => (Return tt, set_counter st counter n).

(** [section in self._reported_global] and [self._reported_global.add] *)
Definition reported_global_contains (section : string) : M bool :=
  fun st => (Return (bool_decide (section ∈ _reported_global st)), st).
Definition reported_global_add (section : string) : M unit :=
  fun st =>
    (Return tt,
     mkState (origin_header_value st) ({[section]} ∪ _reported_global st)
       (_universal_allow_counter st) (_origin_echo_counter st)
       (_universal_origin_allow_creds_counter st) (_allow_methods_counter st)
       (kb_cors_origin st) (om_vulnerability st)).

(** [kb.kb.append(self, 'cors_origin', v)] *)
Definition kb_append (v : Vuln) : M unit :=
  fun st =>
    (Return tt,
     mkState (origin_header_value st) (_reported_global st)
       (_universal_allow_counter st) (_origin_echo_counter st)
       (_universal_origin_allow_creds_counter st) (_allow_methods_counter st)
       (kb_cors_origin st ++ [v]) (om_vulnerability st)).

(** [om.out.vulnerability(msg)] *)
Definition om_out_vulnerability (msg : string) : M unit :=
  fun st =>
    (Return tt,
     mkState (origin_header_value st) (_reported_global st)
       (_universal_allow_counter st) (_origin_echo_counter st)
       (_universal_origin_allow_creds_counter st) (_allow_methods_counter st)
       (kb_cors_origin st) (om_vulnerability st ++ [msg])).

(** [template % args] as a step of a method. *)
Definition py_format (template : string) (args : list string) : M string :=
  match Py.format template args with
  | Some s => mret s
  | None => raise FormatError
  end.

(** ** Message texts *)

Definition dq : string := String "034"%char EmptyString.

Definition summary_name : string := "Multiple CORS misconfigurations".

Definition summary_msg : string :=
  "More than %s URLs in the Web application under analysis returned a CORS response that triggered the %s detection. Given that this seems to be an issue that affects all of the site URLs, the scanner will not report any other specific vulnerabilities of this type.".

Definition universal_allow_name : string :=
  Eval vm_compute in "Access-Control-Allow-Origin set to " +:+ dq +:+ "*" +:+ dq.

Definition universal_allow_msg : string :=
  Eval vm_compute in
    "The remote Web application, specifically " +:+ dq +:+ "%s" +:+ dq +:+
    ", returned an %s header with the value set to " +:+ dq +:+ "*" +:+ dq +:+
    " which is insecure and leaves the application open to Cross-domain attacks.".

Definition origin_echo_creds_name : string :=
  "Insecure Access-Control-Allow-Origin with credentials".

Definition origin_echo_creds_msg : string :=
  Eval vm_compute in
    "The remote Web application, specifically " +:+ dq +:+ "%s" +:+ dq +:+
    ", returned an %s header with the value set to the value sent in the request's Origin header and a %s header with the value set to " +:+
    dq +:+ "true" +:+ dq +:+
    ", which is insecure and leaves the application open to Cross-domain attacks which can affect logged-in users.".

Definition origin_echo_name : string := "Insecure Access-Control-Allow-Origin".

Definition origin_echo_msg : string :=
  Eval vm_compute in
    "The remote Web application, specifically " +:+ dq +:+ "%s" +:+ dq +:+
    ", returned an %s header with the value set to the value sent in the request's Origin header, which is insecure and leaves the application open to Cross-domain attacks.".

Definition allow_creds_name : string :=
  "Incorrect withCredentials implementation".

Definition allow_creds_msg : string :=
  Eval vm_compute in
    "The remote Web application, specifically " +:+ dq +:+ "%s" +:+ dq +:+
    ", returned an %s header with the value set to " +:+ dq +:+ "*" +:+ dq +:+
    "  and an %s header with the value set to " +:+ dq +:+ "true" +:+ dq +:+
    " which according to Mozilla's documentation is invalid. This implementation error might affect the application behavior.".

Definition allow_methods_msg : string :=
  Eval vm_compute in
    "The remote Web application, specifically " +:+ dq +:+ "%s" +:+ dq +:+
    ", returned an %s header with the value set to " +:+ dq +:+ "%s" +:+ dq +:+
    " which is insecure".

Definition both_methods_name : string :=
  "Sensitive and strange CORS methods enabled".
Definition both_methods_tail : string :=
  " since it allows the following sensitive HTTP methods: %s and the following uncommon HTTP methods: %s.".

Definition sensitive_methods_name : string := "Sensitive CORS methods enabled".
Definition sensitive_methods_tail : string :=
  " since it allows the following sensitive HTTP methods: %s.".

Definition strange_methods_name : string := "Uncommon CORS methods enabled".
Definition strange_methods_tail : string :=
  " since it allows the following uncommon HTTP methods: %s.".

Definition set_options_msg : string :=
  Eval vm_compute in
    "Please enter a valid value for the " +:+ dq +:+ "Origin" +:+ dq +:+
    " HTTP header.".

(** ** The report throttle *)

(** The summary [_filter_report] builds from the first finding it is given. *)
Definition summary_vuln (first : Vuln) (vuln_severity : Severity)
    (desc : string) : Vuln :=
  mkVuln (getURL first) (getId first) vuln_severity summary_name desc.

Definition _filter_report (counter : CounterAttr) (section : string)
    (vuln_severity : Severity) (analysis_response : list Vuln)
    : M (list Vuln) :=
  match analysis_response with
  | first :: _ =>
      counter_val ← getattr counter;
      if bool_decide (counter_val ≤ MAX_REPEATED_REPORTS) then
        setattr counter (counter_val + 1);;
        mret analysis_response
      else
        reported ← reported_global_contains section;
        if negb reported then
          reported_global_add section;;
          desc ← py_format summary_msg [pretty MAX_REPEATED_REPORTS; section];
          let v := summary_vuln first vuln_severity desc in
          kb_append v;;
          om_out_vulnerability summary_msg;;
          mret [v]
        else mret []
  | [] => mret []
  end.

(** ** The four analysis methods *)

(** ['true' in allow_credentials_str.lower()], [False] for a missing header. *)
Definition credentials_allowed (allow_credentials_str : option string) : bool :=
  match allow_credentials_str with
  | Some s => Py.contains "true" (Py.lower s)
  | None => false
  end.

Definition _universal_allow (forged_req : Request) (url origin : string)
    (response : Response)
    (allow_origin allow_credentials allow_methods : option string)
    : M (list Vuln) :=
  if bool_decide (allow_origin = Some "*") then
    desc ← py_format universal_allow_msg
             [req_getURL forged_req; ACCESS_CONTROL_ALLOW_ORIGIN];
    let v := mkVuln (req_getURL forged_req) (resp_getId response) LOW
               universal_allow_name desc in
    kb_append v;;
    om_out_vulnerability universal_allow_msg;;
    _filter_report universal_allow_counter "universal allow-origin" MEDIUM [v]
  else mret [].

Definition _origin_echo (forged_req : Request) (url origin : string)
    (response : Response)
    (allow_origin allow_credentials_str allow_methods : option string)
    : M (list Vuln) :=
  match allow_origin with
  | Some allow_origin =>
      let allow_origin := Py.lower allow_origin in
      let allow_credentials := credentials_allowed allow_credentials_str in
      if Py.contains origin allow_origin then
        '(sev, name, msg) ←
          (if allow_credentials then
             msg ← py_format origin_echo_creds_msg
                     [req_getURL forged_req; ACCESS_CONTROL_ALLOW_ORIGIN;
                      ACCESS_CONTROL_ALLOW_CREDENTIALS];
             mret (HIGH, origin_echo_creds_name, msg)
           else
             msg ← py_format origin_echo_msg
                     [req_getURL forged_req; ACCESS_CONTROL_ALLOW_ORIGIN];
             mret (LOW, origin_echo_name, msg)) : M (Severity * string * string);
        let v := mkVuln (req_getURL forged_req) (resp_getId response) sev
                   name msg in
        kb_append v;;
        om_out_vulnerability msg;;
        _filter_report origin_echo_counter "origin echoed in allow-origin"
          HIGH [v]
      else mret []
  | None => mret []
  end.

Definition _universal_origin_allow_creds (forged_req : Request)
    (url origin : string) (response : Response)
    (allow_origin allow_credentials_str allow_methods : option string)
    : M (list Vuln) :=
  let allow_credentials := credentials_allowed allow_credentials_str in
  if allow_credentials && bool_decide (allow_origin = Some "*") then
    desc ← py_format allow_creds_msg
             [req_getURL forged_req; ACCESS_CONTROL_ALLOW_ORIGIN;
              ACCESS_CONTROL_ALLOW_CREDENTIALS];
    let v := mkVuln (req_getURL forged_req) (resp_getId response) INFORMATION
               allow_creds_name desc in
    kb_append v;;
    om_out_vulnerability allow_creds_msg;;
    _filter_report universal_origin_allow_creds_counter
      "withCredentials CORS implementation error" INFORMATION [v]
  else mret [].

(** The three sets [_allow_methods] computes from the header value. *)
Definition allow_methods_set (allow_methods : string) : gset string :=
  let allow_methods_list := Py.split "," allow_methods in
  let allow_methods_list := Py.strip <$> allow_methods_list in
  let allow_methods_list := Py.upper <$> allow_methods_list in
  list_to_set allow_methods_list.

Definition report_sensitive (allow_methods : string) : gset string :=
  foldl (fun acc sensitive_method =>
           if decide (sensitive_method ∈ allow_methods_set allow_methods)
           then {[sensitive_method]} ∪ acc else acc)
    ∅ SENSITIVE_METHODS.

Definition report_strange (allow_methods : string) : gset string :=
  filter (fun allowed_method => allowed_method ∉ COMMON_METHODS)
    (allow_methods_set allow_methods).

(** A Python [set] is iterated in an order the language leaves open; the
    model joins the elements in the order [elements] lists them. *)
Definition join_set (s : gset string) : string := Py.join ", " (elements s).

Definition _allow_methods (forged_req : Request) (url origin : string)
    (response : Response)
    (allow_origin allow_credentials allow_methods : option string)
    : M (list Vuln) :=
  match allow_methods with
  | Some allow_methods =>
      let sensitive := report_sensitive allow_methods in
      let strange := report_strange allow_methods in
      if bool_decide (0 < size sensitive)%nat
         || bool_decide (0 < size strange)%nat then
        msg ← py_format allow_methods_msg
                [url; ACCESS_CONTROL_ALLOW_METHODS; allow_methods];
        '(name, msg) ←
          (if negb (bool_decide (sensitive = ∅))
              && negb (bool_decide (strange = ∅)) then
             msg ← py_format (msg +:+ both_methods_tail)
                     [join_set sensitive; join_set strange];
             mret (both_methods_name, msg)
           else if negb (bool_decide (sensitive = ∅)) then
             msg ← py_format (msg +:+ sensitive_methods_tail)
                     [join_set sensitive];
             mret (sensitive_methods_name, msg)
           else
             msg ← py_format (msg +:+ strange_methods_tail)
                     [join_set strange];
             mret (strange_methods_name, msg)) : M (string * string);
        let v := mkVuln (req_getURL forged_req) (resp_getId response) LOW
                   name msg in
        kb_append v;;
        om_out_vulnerability msg;;
        _filter_report allow_methods_counter "sensitive and uncommon methods"
          LOW [v]
      else mret []
  | None => mret []
  end.

(** ** Running the methods on one response *)

Definition AnalysisMethod : Type :=
  Request -> string -> string -> Response ->
  option string -> option string -> option string -> M (list Vuln).

Definition analysis_methods : list AnalysisMethod :=
  [_universal_allow; _origin_echo; _universal_origin_allow_creds;
   _allow_methods].

Definition _analyze_server_response (forged_req : Request)
    (url origin : string) (response : Response)
    (allow_origin allow_credentials allow_methods : option string)
    : M (list Vuln) :=
  foldl (fun (acc : M (list Vuln)) (analysis_method : AnalysisMethod) =>
           res ← acc;
           found ← analysis_method forged_req url origin response
                     allow_origin allow_credentials allow_methods;
           mret (res ++ found))
    (mret []) analysis_methods.

(** ** Configuration *)

Definition set_origin_header_value (value : option string) : M unit :=
  fun st =>
    (Return tt,
     mkState value (_reported_global st)
       (_universal_allow_counter st) (_origin_echo_counter st)
       (_universal_origin_allow_creds_counter st) (_allow_methods_counter st)
       (kb_cors_origin st) (om_vulnerability st)).

Definition get_origin_header_value : M (option string) :=
  fun st => (Return (origin_header_value st), st).

(** [set_options], given what [options_list['origin_header_value'].getValue()]
    returns.  The attribute is assigned before it is checked. *)
Definition set_options (value : option string) : M unit :=
  set_origin_header_value value;;
  current ← get_origin_header_value;
  match current with
  | None => raise (w3afException set_options_msg)
  | Some s =>
      if bool_decide (String.length (Py.strip s) = 0%nat)
      then raise (w3afException set_options_msg)
      else mret tt
  end.

(** ** Vocabulary of the statements *)

(** The state once a rule has stored its finding and printed its message,
    which every rule does before it calls [_filter_report]. *)
Definition logged (v : Vuln) (msg : string) (st : State) : State :=
  snd ((kb_append v;; om_out_vulnerability msg) st).

(** The description of the summary for [section]. *)
Definition summary_desc (section : string) : string :=
  "More than 3 URLs in the Web application under analysis returned a CORS response that triggered the "
  +:+ section +:+
  " detection. Given that this seems to be an issue that affects all of the site URLs, the scanner will not report any other specific vulnerabilities of this type.".

(** The state once [_filter_report] has stored and printed the summary [v]
    for [section]. *)
Definition summarised (section : string) (v : Vuln) (st : State) : State :=
  snd ((reported_global_add section;; kb_append v;;
        om_out_vulnerability summary_msg) st).

Definition is_summary (v : Vuln) : bool :=
  bool_decide (getName v = summary_name).

(** What the throttle answers when it is handed the single finding [v]. *)
Definition throttled (counter : CounterAttr) (section : string)
    (sev : Severity) (v : Vuln) (st : State) : list Vuln :=
  if bool_decide (counter_value st counter ≤ MAX_REPEATED_REPORTS) then [v]
  else if bool_decide (section ∈ _reported_global st) then []
  else [summary_vuln v sev (summary_desc section)].

(** What a rule that stored [v] leaves in the knowledge base after [v]:
    the summary, when the throttle builds one. *)
Definition stored_after (counter : CounterAttr) (section : string)
    (sev : Severity) (v : Vuln) (st : State) : list Vuln :=
  if bool_decide (counter_value st counter ≤ MAX_REPEATED_REPORTS) then []
  else throttled counter section sev v st.

(** One call of the throttle. *)
Record ThrottleCall : Set := mkCall {
  call_counter : CounterAttr;
  call_section : string;
  call_severity : Severity;
  call_response : list Vuln
}.

Definition run_call (k : ThrottleCall) : M (list Vuln) :=
  _filter_report (call_counter k) (call_section k) (call_severity k)
    (call_response k).

(** What one call returns, and the state it leaves. *)
Definition call_out (k : ThrottleCall) (st : State) : list Vuln :=
  match fst (run_call k st) with
  | Return out => out
  | Raise _ => []
  end.

Definition call_post (k : ThrottleCall) (st : State) : State :=
  snd (run_call k st).

(** The calls of one scan session, in order, with what each returns. *)
Definition session (calls : list ThrottleCall) : M (list (list Vuln)) :=
  mapM run_call calls.

(** The outputs of a session that starts in [st] ([session_outputs] shows
    that a session always returns them). *)
Definition outputs (calls : list ThrottleCall) (st : State)
    : list (list Vuln) :=
  match fst (session calls st) with
  | Return outs => outs
  | Raise _ => []
  end.

(** A kind is the pair of a counter and a section, as each rule passes it. *)
Definition of_kind (counter : CounterAttr) (section : string)
    (k : ThrottleCall) : bool :=
  bool_decide (call_counter k = counter)
  && bool_decide (call_section k = section).

(** What a session returned to the calls of one kind. *)
Fixpoint returned_for (counter : CounterAttr) (section : string)
    (calls : list ThrottleCall) (outs : list (list Vuln)) : list Vuln :=
  match calls, outs with
  | k :: calls', out :: outs' =>
      (if of_kind counter section k then out else [])
      ++ returned_for counter section calls' outs'
  | _, _ => []
  end.

(** The throttle has nothing left to return for a kind: its counter is past
    the limit and its section is summarised. *)
Definition exhausted (counter : CounterAttr) (section : string)
    (st : State) : Prop :=
  MAX_REPEATED_REPORTS < counter_value st counter
  /\ section ∈ _reported_global st.

(** How many findings the throttle can still return for a kind. *)
Definition budget (counter : CounterAttr) (section : string)
    (st : State) : Z :=
  Z.max 0 (MAX_REPEATED_REPORTS + 1 - counter_value st counter)
  + (if bool_decide (section ∈ _reported_global st) then 0 else 1).

(** [s] consists of whitespace only (the empty string included). *)
Fixpoint all_space (s : string) : bool :=
  match s with
  | EmptyString => true
  | String c r => Ascii.is_space c && all_space r
  end.

(** The message of [_allow_methods] after its first formatting. *)
Definition allow_methods_text (url allow_methods : string) : string :=
  "The remote Web application, specifically " +:+ dq +:+ url +:+ dq +:+
  ", returned an Access-Control-Allow-Methods header with the value set to "
  +:+ dq +:+ allow_methods +:+ dq +:+ " which is insecure".

(** The probe of the scenarios. *)
Definition scenario_req : Request := mkRequest "http://x.test/a".
Definition scenario_resp : Response := mkResponse 1.

(** The finding [_origin_echo] returns in a fresh session for that probe
    when the server reflects the origin and allows credentials. *)
Definition scenario_finding : Vuln :=
  Eval vm_compute in
    match fst (_origin_echo scenario_req "http://x.test/a" "http://evil.test"
                 scenario_resp (Some "http://evil.test") (Some "true") None
                 __init__) with
    | Return (v :: _) => v
    | _ => mkVuln "" 0 HIGH "" ""
    end.

(** The throttle call [_origin_echo] makes for it. *)
Definition echo_call : ThrottleCall :=
  mkCall origin_echo_counter "origin echoed in allow-origin" HIGH
    [scenario_finding].

(** * The rest of the plugin *)

(** ** The entry points *)

Section EntryPoints.

(** The HTTP client and the helpers of [core.controllers.cors.utils] are
    not part of the plugin; they are parameters.  The client is taken to
    answer every request.  [probe_without_origin] stands for what a probe
    does when the configured origin is [None], which only a rejected
    [set_options] leaves behind: that path is not modelled. *)
Variable HTTPResponse : Type.
Variable response_getId : HTTPResponse -> Z.
Variable provides_cors_features : Request -> bool.
Variable build_cors_request : string -> string -> Request.
Variable send_mutant : Request -> HTTPResponse.
Variable retrieve_cors_header : HTTPResponse -> string -> option string.
Variable probe_without_origin : string -> M unit.

(** [analyze_cors_security]: one forged request per origin of
    [origin_list], which holds the configured origin only.  What
    [_analyze_server_response] returns is dropped. *)
Definition analyze_cors_security (url : string) : M unit :=
  configured ← get_origin_header_value;
  let origin_list := [configured] in
  mapM (fun origin : option string =>
          match origin with
          | Some origin =>
              let forged_req := build_cors_request url origin in
              let response := send_mutant forged_req in
              let allow_origin :=
                retrieve_cors_header response ACCESS_CONTROL_ALLOW_ORIGIN in
              let allow_credentials :=
                retrieve_cors_header response
                  ACCESS_CONTROL_ALLOW_CREDENTIALS in
              let allow_methods :=
                retrieve_cors_header response ACCESS_CONTROL_ALLOW_METHODS in
              _analyze_server_response forged_req url origin
                (mkResponse (response_getId response))
                allow_origin allow_credentials allow_methods;;
              mret tt
          | None => probe_without_origin url
          end) origin_list;;
  mret tt.

(** [audit], the entry point. *)
Definition audit (freq : Request) : M unit :=
  if negb (provides_cors_features freq) then mret tt
  else analyze_cors_security (req_getURL freq).

(** The audits of a scan, one fuzzable request after the other, up to the
    first that raises. *)
Definition scan (freqs : list Request) : M unit :=
  mapM audit freqs;; mret tt.

End EntryPoints.

(** ** The options *)

(** An [option] object of [core.data.options.option], as far as the plugin
    uses it: the constructor's arguments, [getName] and [getValue]. *)
Record PluginOption : Set := mkOption {
  opt_getName : string;
  opt_getValue : option string;
  opt_desc : string;
  opt_type : string;
  opt_help : string
}.

(** [options_list[name]] on the list an [OptionList] holds; [None] when no
    option has that name. *)
Definition option_list_get (ol : list PluginOption) (name : string)
    : option PluginOption :=
  List.find (fun o => bool_decide (opt_getName o = name)) ol.

(** [get_options] *)
Definition get_options : M (list PluginOption) :=
  fun st =>
    (Return
       [mkOption "origin_header_value" (origin_header_value st)
          "Origin HTTP header value" "string"
          "Define value used to specify the 'Origin' HTTP header for HTTP request sent to test application behavior"],
     st).

(** ** Further vocabulary *)

(** [st'] keeps all that [st] holds: the configuration is the same, no
    section has left [_reported_global], no counter is lower, and the
    knowledge base and the output only have new entries at their end. *)
Definition grows (st st' : State) : Prop :=
  origin_header_value st' = origin_header_value st
  /\ _reported_global st ⊆ _reported_global st'
  /\ (forall counter, counter_value st counter ≤ counter_value st' counter)
  /\ kb_cors_origin st `prefix_of` kb_cors_origin st'
  /\ om_vulnerability st `prefix_of` om_vulnerability st'.

(** Two states the throttle cannot tell apart for one kind. *)
Definition same_for_kind (counter : CounterAttr) (section : string)
    (st st' : State) : Prop :=
  counter_value st counter = counter_value st' counter
  /\ (section ∈ _reported_global st <-> section ∈ _reported_global st').

(** [s] has an ASCII capital letter. *)
Fixpoint has_upper (s : string) : bool :=
  match s with
  | EmptyString => false
  | String c r =>
      (let n := N_of_ascii c in ((65 <=? n) && (n <=? 90))%N) || has_upper r
  end.

(** The state a session of throttle calls ends in. *)
Definition final (calls : list ThrottleCall) (st : State) : State :=
  snd (session calls st).

(** The choices [_allow_methods] makes for a header value: whether it
    fires, and the name, the end of the message and its arguments. *)
Definition methods_fire (allow_methods : string) : bool :=
  bool_decide (0 < size (report_sensitive allow_methods))%nat
  || bool_decide (0 < size (report_strange allow_methods))%nat.

Definition methods_both (allow_methods : string) : bool :=
  negb (bool_decide (report_sensitive allow_methods = ∅))
  && negb (bool_decide (report_strange allow_methods = ∅)).

Definition methods_name (allow_methods : string) : string :=
  if methods_both allow_methods then both_methods_name
  else if negb (bool_decide (report_sensitive allow_methods = ∅))
       then sensitive_methods_name
       else strange_methods_name.

Definition methods_tail (allow_methods : string) : string :=
  if methods_both allow_methods then both_methods_tail
  else if negb (bool_decide (report_sensitive allow_methods = ∅))
       then sensitive_methods_tail
       else strange_methods_tail.

Definition methods_args (allow_methods : string) : list string :=
  if methods_both allow_methods
  then [join_set (report_sensitive allow_methods);
        join_set (report_strange allow_methods)]
  else if negb (bool_decide (report_sensitive allow_methods = ∅))
       then [join_set (report_sensitive allow_methods)]
       else [join_set (report_strange allow_methods)].

(** ** A client for the scenarios *)

(** In the scenarios a response is the list of its headers.  Every request
    provides CORS features, the forged request goes to the URL under
    test, every answer has the id 1, and [answer] gives the headers the
    server sends back for a forged request. *)
Definition scenario_header (response : list (string * string))
    (name : string) : option string :=
  snd <$> List.find (fun h => String.eqb (fst h) name) response.

Definition scenario_audit (answer : Request -> list (string * string))
    : Request -> M unit :=
  audit (list (string * string)) (fun _ => 1) (fun _ => true)
    (fun url _ => mkRequest url) answer scenario_header
    (fun _ => mret tt).

Definition scenario_scan (answer : Request -> list (string * string))
    : list Request -> M unit :=
  scan (list (string * string)) (fun _ => 1) (fun _ => true)
    (fun url _ => mkRequest url) answer scenario_header
    (fun _ => mret tt).

(** * Facts *)

(** ** Running a method *)

Lemma bind_run {A B} (m : M A) (k : A -> M B) (st : State) :
  (m ≫= k) st =
  match m st with
  | (Return a, st') => k a st'
  | (Raise e, st') => (Raise e, st')
  end.
Proof. reflexivity. Qed.

Lemma py_format_run template args st :
  py_format template args st =
  match Py.format template args with
  | Some s => (Return s, st)
  | None => (Raise FormatError, st)
  end.
Proof. unfold py_format. by destruct (Py.format template args). Qed.

(** ** Text: formatting and trimming *)

Lemma fmap_app_empty (o : option string) : String.app "" <$> o = o.
Proof. by destruct o. Qed.

Lemma app_assoc_string (a b c : string) : (a +:+ b) +:+ c = a +:+ (b +:+ c).
Proof.
  induction a as [|x a IH]; [reflexivity|].
  change (String x ((a +:+ b) +:+ c) = String x (a +:+ (b +:+ c))).
  by rewrite IH.
Qed.

Lemma contains_percent_cons c r :
  Py.contains "%" (String c r) = false ->
  c <> "%"%char /\ Py.contains "%" r = false.
Proof.
  cbn. intros H. apply orb_false_iff in H as [H1 H2]. split; [|done].
  intros ->. cbn in H1. by destruct r.
Qed.

Lemma format_plain_char c r args :
  c <> "%"%char -> Py.format (String c r) args = String c <$> Py.format r args.
Proof.
  intros Hc. unfold Py.format. cbn [Py.format_from].
  by destruct (Ascii.eqb_spec c "%").
Qed.

(** Text without a percent sign passes through [%] unchanged. *)
Lemma format_plain_app s t args :
  Py.contains "%" s = false ->
  Py.format (s +:+ t) args = String.app s <$> Py.format t args.
Proof.
  induction s as [|c r IH]; intros H.
  - cbn. by rewrite fmap_app_empty.
  - apply contains_percent_cons in H as [Hc Hr].
    change (String c r +:+ t) with (String c (r +:+ t)).
    rewrite format_plain_char, IH by done.
    by destruct (Py.format t args).
Qed.

Lemma format_summary (section : string) :
  Py.format summary_msg [pretty MAX_REPEATED_REPORTS; section]
  = Some (summary_desc section).
Proof. reflexivity. Qed.

Lemma format_allow_methods_msg url allow_methods :
  Py.format allow_methods_msg
    [url; ACCESS_CONTROL_ALLOW_METHODS; allow_methods]
  = Some (allow_methods_text url allow_methods).
Proof. reflexivity. Qed.

Lemma format_post_get_trace url :
  Py.contains "%" url = false ->
  Py.format (allow_methods_text url "post, Get, TRACE"
             +:+ strange_methods_tail) ["TRACE"]
  = Some (allow_methods_text url "post, Get, TRACE"
          +:+ " since it allows the following uncommon HTTP methods: TRACE.").
Proof.
  intros Hurl. unfold allow_methods_text.
  rewrite !app_assoc_string.
  rewrite (format_plain_app "The remote Web application, specifically ")
    by reflexivity.
  rewrite (format_plain_app dq) by reflexivity.
  rewrite (format_plain_app url) by done.
  reflexivity.
Qed.

Lemma contains_star origin :
  origin <> "" -> origin <> "*" -> Py.contains origin "*" = false.
Proof.
  intros H1 H2. destruct origin as [|c r]; [done|]. cbn.
  rewrite orb_false_r.
  destruct (ascii_dec c "*") as [->|Hne]; [|done].
  destruct r; [done|reflexivity].
Qed.

Lemma rstrip_empty s : Py.rstrip s = "" <-> all_space s = true.
Proof.
  induction s as [|c r IH]; [done|]. cbn.
  destruct (Py.rstrip r) eqn:E.
  - destruct (Ascii.is_space c); cbn.
    + split; [intros _; by apply IH|done].
    + split; done.
  - split; [done|]. intros [_ H]%andb_true_iff. apply IH in H. done.
Qed.

Lemma all_space_lstrip s : all_space (Py.lstrip s) = all_space s.
Proof.
  induction s as [|c r IH]; [done|]. cbn.
  destruct (Ascii.is_space c) eqn:E; [by rewrite IH|]. cbn. by rewrite E.
Qed.

Lemma strip_empty s : Py.strip s = "" <-> all_space s = true.
Proof. unfold Py.strip. by rewrite rstrip_empty, all_space_lstrip. Qed.

Lemma length_zero_empty (s : string) : String.length s = 0%nat <-> s = "".
Proof. by destruct s. Qed.

(** ** The fields of the state *)

Lemma counter_value_init counter : counter_value __init__ counter = 0.
Proof. destruct counter; reflexivity. Qed.

Lemma counter_value_set_same st counter n :
  counter_value (set_counter st counter n) counter = n.
Proof. destruct counter; reflexivity. Qed.

Lemma counter_value_set_other st counter counter' n :
  counter' ≠ counter ->
  counter_value (set_counter st counter n) counter' = counter_value st counter'.
Proof. destruct counter, counter'; intros H; try reflexivity; congruence. Qed.

Lemma reported_set_counter st counter n :
  _reported_global (set_counter st counter n) = _reported_global st.
Proof. reflexivity. Qed.

Lemma kb_set_counter st counter n :
  kb_cors_origin (set_counter st counter n) = kb_cors_origin st.
Proof. reflexivity. Qed.

Lemma counter_value_summarised section v st counter :
  counter_value (summarised section v st) counter = counter_value st counter.
Proof. destruct counter; reflexivity. Qed.

Lemma reported_summarised section v st :
  _reported_global (summarised section v st) = {[section]} ∪ _reported_global st.
Proof. reflexivity. Qed.

Lemma kb_summarised section v st :
  kb_cors_origin (summarised section v st) = kb_cors_origin st ++ [v].
Proof. reflexivity. Qed.

Lemma om_summarised section v st :
  om_vulnerability (summarised section v st)
  = om_vulnerability st ++ [summary_msg].
Proof. reflexivity. Qed.

Lemma counter_value_logged v msg st counter :
  counter_value (logged v msg st) counter = counter_value st counter.
Proof. destruct counter; reflexivity. Qed.

Lemma reported_logged v msg st :
  _reported_global (logged v msg st) = _reported_global st.
Proof. reflexivity. Qed.

Lemma kb_logged v msg st :
  kb_cors_origin (logged v msg st) = kb_cors_origin st ++ [v].
Proof. reflexivity. Qed.

Lemma om_logged v msg st :
  om_vulnerability (logged v msg st) = om_vulnerability st ++ [msg].
Proof. reflexivity. Qed.

Create Rewrite HintDb fields.
#[local] Hint Rewrite counter_value_init counter_value_set_same reported_set_counter
  kb_set_counter counter_value_summarised reported_summarised kb_summarised
  om_summarised counter_value_logged reported_logged kb_logged om_logged
  : fields.

(** ** The throttle, branch by branch *)

Lemma filter_report_run counter section sev resp st :
  _filter_report counter section sev resp st =
  match resp with
  | [] => (Return [], st)
  | first :: _ =>
      if bool_decide (counter_value st counter ≤ MAX_REPEATED_REPORTS) then
        (Return resp, set_counter st counter (counter_value st counter + 1))
      else if bool_decide (section ∈ _reported_global st) then (Return [], st)
      else
        let v := summary_vuln first sev (summary_desc section) in
        (Return [v], summarised section v st)
  end.
Proof.
  destruct resp as [|first rest]; [reflexivity|].
  unfold _filter_report, mbind, M_bind, getattr.
  case_bool_decide; [reflexivity|].
  unfold reported_global_contains.
  case_bool_decide; [reflexivity|].
  unfold py_format. rewrite format_summary. reflexivity.
Qed.

Lemma filter_report_pass counter section sev v rest st :
  counter_value st counter ≤ MAX_REPEATED_REPORTS ->
  _filter_report counter section sev (v :: rest) st
  = (Return (v :: rest),
     set_counter st counter (counter_value st counter + 1)).
Proof.
  intros H. rewrite filter_report_run. rewrite bool_decide_eq_true_2; done.
Qed.

Lemma filter_report_summary counter section sev v rest st :
  MAX_REPEATED_REPORTS < counter_value st counter ->
  section ∉ _reported_global st ->
  _filter_report counter section sev (v :: rest) st
  = (Return [summary_vuln v sev (summary_desc section)],
     summarised section (summary_vuln v sev (summary_desc section)) st).
Proof.
  intros H Hs. rewrite filter_report_run.
  rewrite bool_decide_eq_false_2 by lia.
  rewrite bool_decide_eq_false_2; done.
Qed.

Lemma filter_report_suppressed counter section sev resp st :
  MAX_REPEATED_REPORTS < counter_value st counter ->
  section ∈ _reported_global st ->
  _filter_report counter section sev resp st = (Return [], st).
Proof.
  intros H Hs. rewrite filter_report_run. destruct resp; [done|].
  rewrite bool_decide_eq_false_2 by lia.
  rewrite bool_decide_eq_true_2; done.
Qed.

(** A rule that fires: the finding is stored and printed, then throttled. *)
Lemma filter_report_logged counter section sev v msg st :
  fst (_filter_report counter section sev [v] (logged v msg st))
  = Return (throttled counter section sev v st).
Proof.
  rewrite filter_report_run. autorewrite with fields.
  unfold throttled. repeat case_bool_decide; reflexivity.
Qed.

Lemma filter_report_logged_pass counter section sev v msg st :
  counter_value st counter ≤ MAX_REPEATED_REPORTS ->
  _filter_report counter section sev [v] (logged v msg st)
  = (Return [v],
     set_counter (logged v msg st) counter (counter_value st counter + 1)).
Proof.
  intros H. rewrite filter_report_pass; autorewrite with fields; done.
Qed.

Lemma kb_after_throttle counter section sev v msg st :
  kb_cors_origin (snd (_filter_report counter section sev [v] (logged v msg st)))
  = kb_cors_origin st ++ v :: stored_after counter section sev v st.
Proof.
  rewrite filter_report_run. autorewrite with fields.
  unfold stored_after, throttled.
  repeat case_bool_decide; cbv zeta; cbn [snd]; autorewrite with fields;
    try reflexivity; try lia.
  by rewrite <- app_assoc.
Qed.

Lemma om_after_throttle counter section sev v msg st :
  exists more,
    om_vulnerability
      (snd (_filter_report counter section sev [v] (logged v msg st)))
    = om_vulnerability st ++ msg :: more.
Proof.
  rewrite filter_report_run. autorewrite with fields.
  repeat case_bool_decide; cbv zeta; cbn [snd].
  - by exists [].
  - by exists [].
  - exists [summary_msg]. autorewrite with fields. by rewrite <- app_assoc.
Qed.

(** ** Sessions of throttle calls *)

(** The throttle always returns: it has no raising path. *)
Lemma run_call_eq k st : run_call k st = (Return (call_out k st), call_post k st).
Proof.
  unfold call_out, call_post, run_call. rewrite filter_report_run.
  destruct (call_response k); [reflexivity|].
  repeat case_bool_decide; reflexivity.
Qed.

Lemma session_returns calls st :
  exists outs st', session calls st = (Return outs, st').
Proof.
  revert st. induction calls as [|k calls IH]; intros st.
  - by exists [], st.
  - destruct (IH (call_post k st)) as (outs & st' & E).
    exists (call_out k st :: outs), st'.
    unfold session in *. simpl.
    by rewrite bind_run, run_call_eq, bind_run, E.
Qed.

Lemma session_outputs calls st :
  fst (session calls st) = Return (outputs calls st).
Proof.
  unfold outputs. destruct (session_returns calls st) as (outs & st' & ->).
  reflexivity.
Qed.

Lemma outputs_nil st : outputs [] st = [].
Proof. reflexivity. Qed.

Lemma outputs_cons k calls st :
  outputs (k :: calls) st = call_out k st :: outputs calls (call_post k st).
Proof.
  destruct (session_returns calls (call_post k st)) as (outs & st' & E).
  unfold outputs, session in *. simpl.
  by rewrite bind_run, run_call_eq, bind_run, E.
Qed.

Lemma outputs_take n calls st :
  outputs (take n calls) st = take n (outputs calls st).
Proof.
  revert n st. induction calls as [|k calls IH]; intros n st.
  - by destruct n.
  - destruct n as [|n]; [reflexivity|].
    cbn [take]. rewrite !outputs_cons. cbn [take]. by rewrite IH.
Qed.

Lemma of_kind_same counter section sev resp :
  of_kind counter section (mkCall counter section sev resp) = true.
Proof.
  unfold of_kind; simpl. by rewrite !bool_decide_eq_true_2.
Qed.

Lemma of_kind_true counter section k :
  of_kind counter section k = true ->
  call_counter k = counter /\ call_section k = section.
Proof.
  intros [H1 H2]%andb_true_iff. by apply bool_decide_eq_true in H1, H2.
Qed.

(** One call, by the branch it takes. *)
Lemma call_out_post k st :
  (call_out k st, call_post k st) =
  match call_response k with
  | [] => ([], st)
  | first :: _ =>
      if bool_decide (counter_value st (call_counter k) ≤ MAX_REPEATED_REPORTS)
      then (call_response k,
            set_counter st (call_counter k)
              (counter_value st (call_counter k) + 1))
      else if bool_decide (call_section k ∈ _reported_global st) then ([], st)
      else
        let v := summary_vuln first (call_severity k)
                   (summary_desc (call_section k)) in
        ([v], summarised (call_section k) v st)
  end.
Proof.
  unfold call_out, call_post, run_call. rewrite filter_report_run.
  destruct (call_response k); [reflexivity|].
  repeat case_bool_decide; reflexivity.
Qed.

(** Case analysis on the branch the call [k] takes in [st]: empty list,
    passed, suppressed, summarised. *)
Ltac call_cases k st :=
  let E := fresh "E" in
  let Eo := fresh "Eo" in
  let Ep := fresh "Ep" in
  let Hc := fresh "Hc" in
  let Hs := fresh "Hs" in
  let R := fresh "R" in
  pose proof (call_out_post k st) as E;
  destruct (call_response k) as [|? ?] eqn:R;
  [|destruct (decide (counter_value st (call_counter k) ≤ MAX_REPEATED_REPORTS))
      as [Hc|Hc];
    [rewrite (bool_decide_eq_true_2 _ Hc) in E
    |rewrite (bool_decide_eq_false_2 _ Hc) in E;
     destruct (decide (call_section k ∈ _reported_global st)) as [Hs|Hs];
     [rewrite (bool_decide_eq_true_2 _ Hs) in E
     |rewrite (bool_decide_eq_false_2 _ Hs) in E]]];
  cbv zeta in E; injection E as Eo Ep; rewrite ?Eo, ?Ep in *.

Lemma exhausted_call_post counter section k st :
  exhausted counter section st -> exhausted counter section (call_post k st).
Proof.
  intros [Hn Hin]. call_cases k st; try (split; assumption).
  - split; [|by rewrite reported_set_counter].
    destruct (decide (counter = call_counter k)) as [->|Hne].
    + rewrite counter_value_set_same. lia.
    + by rewrite counter_value_set_other.
  - split; autorewrite with fields; [done|]. by apply elem_of_union_r.
Qed.

Lemma exhausted_call_out counter section k st :
  exhausted counter section st -> of_kind counter section k = true ->
  call_out k st = [].
Proof.
  intros [Hn Hin] [<- <-]%of_kind_true.
  call_cases k st; try reflexivity; lia || contradiction.
Qed.

Lemma call_out_summary k st :
  Forall (fun v => is_summary v = false) (call_response k) ->
  Exists (fun v => is_summary v = true) (call_out k st) ->
  List.filter is_summary (call_out k st) = call_out k st
  /\ length (call_out k st) = 1%nat
  /\ exhausted (call_counter k) (call_section k) (call_post k st).
Proof.
  intros Hraw Hex. revert Hex. call_cases k st; intros Hex.
  - by apply Exists_nil in Hex.
  - exfalso. rewrite Forall_forall in Hraw. rewrite Exists_exists in Hex.
    destruct Hex as (w & Hw & Hsum). specialize (Hraw w Hw). congruence.
  - by apply Exists_nil in Hex.
  - split; [reflexivity|]. split; [reflexivity|].
    split; autorewrite with fields; [lia|].
    apply elem_of_union_l. by apply elem_of_singleton.
Qed.

Lemma call_out_no_summary k st :
  ~ Exists (fun v => is_summary v = true) (call_out k st) ->
  List.filter is_summary (call_out k st) = [].
Proof.
  intros Hno. induction (call_out k st) as [|v l IH]; [reflexivity|].
  simpl. destruct (is_summary v) eqn:Ev.
  - exfalso. apply Hno. by left.
  - apply IH. intros Hl. apply Hno. by right.
Qed.

Lemma exhausted_returned counter section calls st :
  exhausted counter section st ->
  returned_for counter section calls (outputs calls st) = [].
Proof.
  revert st. induction calls as [|k calls IH]; intros st Hex; [reflexivity|].
  rewrite outputs_cons. simpl.
  rewrite IH by by apply exhausted_call_post.
  destruct (of_kind counter section k) eqn:Hk; [|reflexivity].
  by rewrite (exhausted_call_out counter section).
Qed.

Lemma exhausted_outputs counter section calls st j kj :
  exhausted counter section st ->
  calls !! j = Some kj -> of_kind counter section kj = true ->
  outputs calls st !! j = Some [].
Proof.
  revert st j. induction calls as [|k calls IH]; intros st j Hex Hj Hk;
    [done|].
  rewrite outputs_cons. destruct j as [|j]; simpl in *.
  - injection Hj as ->. by rewrite (exhausted_call_out counter section).
  - apply IH; [by apply exhausted_call_post|done..].
Qed.

Lemma summaries_at_most_one counter section calls st :
  Forall (fun k => Forall (fun v => is_summary v = false) (call_response k))
    calls ->
  (length (List.filter is_summary
             (returned_for counter section calls (outputs calls st))) ≤ 1)%nat.
Proof.
  revert st. induction calls as [|k calls IH]; intros st Hraw; [simpl; lia|].
  apply Forall_cons in Hraw as [Hk Hraw].
  rewrite outputs_cons. simpl. rewrite List.filter_app, length_app.
  destruct (of_kind counter section k) eqn:Hkind.
  - destruct (decide (Exists (fun v => is_summary v = true) (call_out k st)))
      as [Hex|Hno].
    + destruct (call_out_summary k st Hk Hex) as (-> & -> & Hdone).
      apply of_kind_true in Hkind as [<- <-].
      rewrite exhausted_returned by done. simpl. lia.
    + rewrite call_out_no_summary by done. simpl. by apply IH.
  - simpl. by apply IH.
Qed.

Lemma summary_then_silent counter section calls st i j ki kj oi :
  Forall (fun k => Forall (fun v => is_summary v = false) (call_response k))
    calls ->
  (i < j)%nat ->
  calls !! i = Some ki -> of_kind counter section ki = true ->
  outputs calls st !! i = Some oi ->
  Exists (fun v => is_summary v = true) oi ->
  calls !! j = Some kj -> of_kind counter section kj = true ->
  outputs calls st !! j = Some [].
Proof.
  revert st i j. induction calls as [|k calls IH];
    intros st i j Hraw Hij Hi Hki Hoi Hex Hj Hkj; [done|].
  apply Forall_cons in Hraw as [Hk Hraw].
  rewrite outputs_cons in *.
  destruct j as [|j]; [lia|]. destruct i as [|i]; simpl in *.
  - injection Hi as ->. injection Hoi as <-.
    destruct (call_out_summary ki st Hk Hex) as (_ & _ & Hdone).
    apply of_kind_true in Hki as [<- <-].
    by eapply exhausted_outputs.
  - eapply (IH _ i j); eauto. lia.
Qed.

Lemma budget_step counter section k st :
  (length (call_response k) ≤ 1)%nat ->
  Z.of_nat (length (if of_kind counter section k then call_out k st else []))
  + budget counter section (call_post k st)
  ≤ budget counter section st.
Proof.
  intros Hlen. unfold budget, of_kind.
  call_cases k st.
  - destruct (_ && _); simpl; lia.
  - rewrite reported_set_counter.
    destruct (decide (call_counter k = counter)) as [<-|Hne].
    + rewrite counter_value_set_same.
      rewrite (bool_decide_eq_true_2 (call_counter k = call_counter k)) by done.
      destruct (bool_decide (call_section k = section)); simpl in *; lia.
    + rewrite counter_value_set_other by done.
      rewrite (bool_decide_eq_false_2 _ Hne). simpl. lia.
  - destruct (_ && _); simpl; lia.
  - rewrite counter_value_summarised, reported_summarised.
    destruct (decide (call_section k = section)) as [<-|Hne].
    + rewrite (bool_decide_eq_true_2 (call_section k = call_section k)) by done.
      rewrite (bool_decide_eq_false_2 _ Hs).
      rewrite (bool_decide_eq_true_2 (call_section k ∈ _)).
      * destruct (bool_decide (call_counter k = counter)); simpl; lia.
      * apply elem_of_union_l. by apply elem_of_singleton.
    + rewrite (bool_decide_eq_false_2 _ Hne), andb_false_r. simpl.
      destruct (decide (section ∈ _reported_global st)) as [Hin|Hnin].
      * rewrite (bool_decide_eq_true_2 _ Hin).
        rewrite bool_decide_eq_true_2; [lia|]. by apply elem_of_union_r.
      * rewrite (bool_decide_eq_false_2 _ Hnin).
        case_bool_decide; lia.
Qed.

(** However the calls of a session interleave, the findings returned for
    one kind never exceed the budget of the state the session starts in. *)
Lemma returned_within_budget counter section calls st :
  Forall (fun k => (length (call_response k) ≤ 1)%nat) calls ->
  Z.of_nat (length (returned_for counter section calls (outputs calls st)))
  ≤ budget counter section st.
Proof.
  revert st. induction calls as [|k calls IH]; intros st Hlen.
  - simpl. unfold budget. case_bool_decide; lia.
  - apply Forall_cons in Hlen as [Hk Hlen].
    rewrite outputs_cons. simpl. rewrite length_app.
    pose proof (budget_step counter section k st Hk).
    specialize (IH (call_post k st) Hlen). lia.
Qed.

(** The bound the code keeps: a fresh session returns at most
    [MAX_REPEATED_REPORTS + 2] findings for a kind when every call carries
    at most one raw finding, as the rules' calls do. *)
Lemma returned_fresh_bound counter section calls :
  Forall (fun k => (length (call_response k) ≤ 1)%nat) calls ->
  Z.of_nat (length (returned_for counter section calls
                      (outputs calls __init__)))
  ≤ MAX_REPEATED_REPORTS + 2.
Proof.
  intros H. etrans; [by apply returned_within_budget|].
  unfold budget. rewrite counter_value_init.
  rewrite bool_decide_eq_false_2 by apply not_elem_of_empty.
  unfold MAX_REPEATED_REPORTS. lia.
Qed.

Lemma call_out_pass counter section sev v rest st :
  counter_value st counter ≤ MAX_REPEATED_REPORTS ->
  call_out (mkCall counter section sev (v :: rest)) st = v :: rest.
Proof.
  intros H. pose proof (call_out_post (mkCall counter section sev (v :: rest))
                          st) as E.
  cbn [call_response call_counter] in E.
  rewrite bool_decide_eq_true_2 in E by done. by injection E.
Qed.

Lemma call_post_pass counter section sev v rest st :
  counter_value st counter ≤ MAX_REPEATED_REPORTS ->
  call_post (mkCall counter section sev (v :: rest)) st
  = set_counter st counter (counter_value st counter + 1).
Proof.
  intros H. pose proof (call_out_post (mkCall counter section sev (v :: rest))
                          st) as E.
  cbn [call_response call_counter] in E.
  rewrite bool_decide_eq_true_2 in E by done. by injection E.
Qed.

(** Six reports of one kind in a fresh session. *)
Lemma outputs_fresh_six counter section sev v1 v2 v3 v4 v5 v6 :
  outputs [mkCall counter section sev [v1]; mkCall counter section sev [v2];
           mkCall counter section sev [v3]; mkCall counter section sev [v4];
           mkCall counter section sev [v5]; mkCall counter section sev [v6]]
    __init__
  = [[v1]; [v2]; [v3]; [v4];
     [summary_vuln v5 sev (summary_desc section)]; []].
Proof.
  assert (Hstep : forall st v n,
    counter_value st counter = n -> n ≤ MAX_REPEATED_REPORTS ->
    call_out (mkCall counter section sev [v]) st = [v] /\
    counter_value (call_post (mkCall counter section sev [v]) st) counter = n + 1 /\
    _reported_global (call_post (mkCall counter section sev [v]) st)
    = _reported_global st).
  { intros st v n Hn Hle. rewrite call_out_pass, call_post_pass by lia.
    rewrite counter_value_set_same, reported_set_counter. by subst. }
  pose proof (counter_value_init counter) as H0.
  assert (R0 : _reported_global __init__ = ∅) by reflexivity.
  unfold MAX_REPEATED_REPORTS in Hstep.
  rewrite outputs_cons.
  destruct (Hstep _ v1 _ H0 ltac:(lia)) as (-> & H1 & R1). rewrite R0 in R1.
  rewrite outputs_cons.
  destruct (Hstep _ v2 _ H1 ltac:(lia)) as (-> & H2 & R2). rewrite R1 in R2.
  rewrite outputs_cons.
  destruct (Hstep _ v3 _ H2 ltac:(lia)) as (-> & H3 & R3). rewrite R2 in R3.
  rewrite outputs_cons.
  destruct (Hstep _ v4 _ H3 ltac:(lia)) as (-> & H4 & R4). rewrite R3 in R4.
  rewrite outputs_cons.
  set (st4 := call_post _ (call_post _ (call_post _ (call_post _ __init__)))) in *.
  assert (E5 : run_call (mkCall counter section sev [v5]) st4
    = (Return [summary_vuln v5 sev (summary_desc section)],
       summarised section (summary_vuln v5 sev (summary_desc section)) st4)).
  { unfold run_call.
    cbn [call_counter call_section call_severity call_response].
    apply filter_report_summary.
    - unfold MAX_REPEATED_REPORTS. lia.
    - rewrite R4. apply not_elem_of_empty. }
  unfold call_out at 1, call_post at 1. rewrite E5. cbn [fst snd].
  rewrite outputs_cons, outputs_nil.
  rewrite (exhausted_call_out counter section); [reflexivity| |apply of_kind_same].
  split; autorewrite with fields.
  - unfold MAX_REPEATED_REPORTS. lia.
  - apply elem_of_union_l. by apply elem_of_singleton.
Qed.

(** * The report throttle in a scan session *)

(** C1: six reports of one kind in a fresh session, one raw finding each.
    The first FOUR calls return the finding they were given, the fifth call
    returns the summary and the sixth returns nothing.  The counter is
    compared with [MAX_REPEATED_REPORTS] before it is incremented, so one
    report more than the limit passes. *)
Theorem fresh_session_six_reports counter section sev v1 v2 v3 v4 v5 v6 :
  fst (session
         [mkCall counter section sev [v1]; mkCall counter section sev [v2];
          mkCall counter section sev [v3]; mkCall counter section sev [v4];
          mkCall counter section sev [v5]; mkCall counter section sev [v6]]
         __init__)
  = Return [[v1]; [v2]; [v3]; [v4];
            [summary_vuln v5 sev (summary_desc section)]; []]
  /\ getName (summary_vuln v5 sev (summary_desc section))
     = "Multiple CORS misconfigurations"
  /\ getSeverity (summary_vuln v5 sev (summary_desc section)) = sev.
Proof.
  rewrite session_outputs, outputs_fresh_six. by repeat split.
Qed.

(** C2: five reports of one kind in a fresh session return five findings
    (four individual ones and the summary), which is
    [MAX_REPEATED_REPORTS + 2] and not [MAX_REPEATED_REPORTS + 1]. *)
Theorem fresh_session_five_findings counter section sev v :
  let calls := replicate 5 (mkCall counter section sev [v]) in
  fst (session calls __init__)
  = Return [[v]; [v]; [v]; [v]; [summary_vuln v sev (summary_desc section)]]
  /\ Z.of_nat (length (returned_for counter section calls
                         (outputs calls __init__)))
     = MAX_REPEATED_REPORTS + 2.
Proof.
  cbv zeta.
  assert (E : outputs (replicate 5 (mkCall counter section sev [v])) __init__
              = [[v]; [v]; [v]; [v];
                 [summary_vuln v sev (summary_desc section)]]).
  { change (replicate 5 (mkCall counter section sev [v]))
      with (take 5 (replicate 6 (mkCall counter section sev [v]))).
    rewrite outputs_take. cbn [replicate]. by rewrite outputs_fresh_six. }
  rewrite session_outputs, E. split; [reflexivity|].
  cbn [replicate returned_for]. rewrite !of_kind_same. reflexivity.
Qed.

(** C3: take any sequence of throttle calls in a fresh session, of whatever
    kinds and in whatever order, whose raw findings are not named like the
    summary (no rule names its finding so, see [analysis_method_shape]).
    The session returns [outputs calls __init__]; among what it returns to
    the calls of one kind there is at most one summary; and once a call of
    that kind has been returned the summary, every later call of that kind
    is returned the empty list. *)
Theorem summary_once_then_silent calls counter section :
  Forall (fun k => Forall (fun v => is_summary v = false) (call_response k))
    calls ->
  fst (session calls __init__) = Return (outputs calls __init__)
  /\ (length (List.filter is_summary
                (returned_for counter section calls (outputs calls __init__)))
      ≤ 1)%nat
  /\ forall i j ki kj oi,
       (i < j)%nat ->
       calls !! i = Some ki -> of_kind counter section ki = true ->
       outputs calls __init__ !! i = Some oi ->
       Exists (fun v => is_summary v = true) oi ->
       calls !! j = Some kj -> of_kind counter section kj = true ->
       outputs calls __init__ !! j = Some [].
Proof.
  intros Hraw. split; [apply session_outputs|]. split.
  - by apply summaries_at_most_one.
  - intros i j ki kj oi. by apply summary_then_silent.
Qed.

Lemma summary_once_then_silent_witness :
  let calls := replicate 6 echo_call in
  Forall (fun k => Forall (fun v => is_summary v = false) (call_response k))
    calls
  /\ (fst (session calls __init__) = Return (outputs calls __init__)
      /\ (length (List.filter is_summary
                    (returned_for origin_echo_counter
                       "origin echoed in allow-origin" calls
                       (outputs calls __init__))) ≤ 1)%nat
      /\ forall i j ki kj oi,
           (i < j)%nat ->
           calls !! i = Some ki ->
           of_kind origin_echo_counter "origin echoed in allow-origin" ki
           = true ->
           outputs calls __init__ !! i = Some oi ->
           Exists (fun v => is_summary v = true) oi ->
           calls !! j = Some kj ->
           of_kind origin_echo_counter "origin echoed in allow-origin" kj
           = true ->
           outputs calls __init__ !! j = Some []).
Proof.
  split; [repeat constructor|].
  apply summary_once_then_silent. repeat constructor.
Defined.

(** C9 as the code has it: a call with a non-empty list adds one to the
    counter it names exactly when that counter has not passed
    [MAX_REPEATED_REPORTS], which is the branch that returns the list;
    past it (summary and suppressed calls) the counter keeps its value.
    No other counter ever changes, and a call with an empty list changes
    nothing. *)
Theorem filter_report_counter counter section sev resp st c :
  counter_value (snd (_filter_report counter section sev resp st)) c
  = (if bool_decide (c = counter)
        && bool_decide (resp ≠ [])
        && bool_decide (counter_value st counter ≤ MAX_REPEATED_REPORTS)
     then counter_value st c + 1
     else counter_value st c)
  /\ fst (_filter_report counter section sev resp st)
     = Return
         match resp with
         | [] => []
         | first :: _ =>
             if bool_decide (counter_value st counter ≤ MAX_REPEATED_REPORTS)
             then resp
             else if bool_decide (section ∈ _reported_global st) then []
             else [summary_vuln first sev (summary_desc section)]
         end
  /\ _filter_report counter section sev [] st = (Return [], st).
Proof.
  split; [|split; [|reflexivity]].
  - rewrite filter_report_run. destruct resp as [|v rest].
    + by rewrite andb_false_r.
    + rewrite (bool_decide_eq_true_2 (v :: rest ≠ [])) by done.
      rewrite andb_true_r.
      destruct (decide (counter_value st counter ≤ MAX_REPEATED_REPORTS))
        as [Hc|Hc].
      * rewrite (bool_decide_eq_true_2 _ Hc), andb_true_r. cbn [snd].
        destruct (decide (c = counter)) as [->|Hne].
        -- by rewrite counter_value_set_same, bool_decide_eq_true_2.
        -- by rewrite counter_value_set_other, bool_decide_eq_false_2.
      * rewrite (bool_decide_eq_false_2 _ Hc), andb_false_r.
        case_bool_decide; [reflexivity|].
        cbv zeta. cbn [snd]. by rewrite counter_value_summarised.
  - rewrite filter_report_run. destruct resp as [|v rest]; [reflexivity|].
    repeat case_bool_decide; reflexivity.
Qed.

(** C9 as stated fails: after four reports the counter of the kind is 4;
    the fifth report (answered with the summary) and the sixth (suppressed)
    carry a finding each and leave it at 4. *)
Lemma counter_past_limit_not_incremented :
  let st4 := snd (session (replicate 4 echo_call) __init__) in
  let st5 := snd (session (replicate 5 echo_call) __init__) in
  call_response echo_call <> []
  /\ counter_value st4 origin_echo_counter = 4
  /\ counter_value (snd (run_call echo_call st4)) origin_echo_counter
     <> counter_value st4 origin_echo_counter + 1
  /\ counter_value st5 origin_echo_counter = 4
  /\ counter_value (snd (run_call echo_call st5)) origin_echo_counter
     <> counter_value st5 origin_echo_counter + 1.
Proof.
  cbv zeta. split; [discriminate|].
  split; [vm_compute; reflexivity|].
  split; [vm_compute; discriminate|].
  split; [vm_compute; reflexivity|].
  vm_compute; discriminate.
Qed.

(** * The rules *)

Section Probe.

Variables (forged_req : Request) (url origin : string) (response : Response).
Variables (allow_origin allow_credentials allow_methods : option string).

(** ** Each method is: stay silent, or store the finding and throttle it *)

Lemma universal_allow_run :
  exists desc, forall st,
    let v := mkVuln (req_getURL forged_req) (resp_getId response) LOW
               universal_allow_name desc in
    _universal_allow forged_req url origin response allow_origin
      allow_credentials allow_methods st
    = if bool_decide (allow_origin = Some "*")
      then _filter_report universal_allow_counter "universal allow-origin"
             MEDIUM [v] (logged v universal_allow_msg st)
      else (Return [], st).
Proof.
  unfold _universal_allow. case_bool_decide; [|by exists ""].
  eexists. intros st. cbv zeta. rewrite bind_run, py_format_run. reflexivity.
Qed.

Lemma origin_echo_run :
  exists desc, forall st,
    let v := mkVuln (req_getURL forged_req) (resp_getId response)
               (if credentials_allowed allow_credentials then HIGH else LOW)
               (if credentials_allowed allow_credentials
                then origin_echo_creds_name else origin_echo_name) desc in
    _origin_echo forged_req url origin response allow_origin
      allow_credentials allow_methods st
    = if match allow_origin with
         | Some a => Py.contains origin (Py.lower a)
         | None => false
         end
      then _filter_report origin_echo_counter "origin echoed in allow-origin"
             HIGH [v] (logged v desc st)
      else (Return [], st).
Proof.
  unfold _origin_echo. destruct allow_origin as [a|]; [|by exists ""].
  cbv zeta. destruct (Py.contains origin (Py.lower a)); [|by exists ""].
  destruct (credentials_allowed allow_credentials);
    eexists; intros st; rewrite bind_run, bind_run, py_format_run; reflexivity.
Qed.

Lemma universal_origin_allow_creds_run :
  exists desc, forall st,
    let v := mkVuln (req_getURL forged_req) (resp_getId response) INFORMATION
               allow_creds_name desc in
    _universal_origin_allow_creds forged_req url origin response allow_origin
      allow_credentials allow_methods st
    = if credentials_allowed allow_credentials
         && bool_decide (allow_origin = Some "*")
      then _filter_report universal_origin_allow_creds_counter
             "withCredentials CORS implementation error" INFORMATION [v]
             (logged v allow_creds_msg st)
      else (Return [], st).
Proof.
  unfold _universal_origin_allow_creds. cbv zeta.
  destruct (credentials_allowed allow_credentials
            && bool_decide (allow_origin = Some "*"));
    [|by exists ""].
  eexists. intros st. rewrite bind_run, py_format_run. reflexivity.
Qed.

(** Whether a method raises, stays silent or fires does not depend on the
    state.  A method that fires stores and prints its finding, which is
    never named like the summary, then hands it to the throttle. *)
Lemma allow_methods_shape :
  (exists e, forall st,
     _allow_methods forged_req url origin response allow_origin
       allow_credentials allow_methods st = (Raise e, st))
  \/ (forall st,
        _allow_methods forged_req url origin response allow_origin
          allow_credentials allow_methods st = (Return [], st))
  \/ (exists v msg,
        is_summary v = false /\
        forall st,
          _allow_methods forged_req url origin response allow_origin
            allow_credentials allow_methods st
          = _filter_report allow_methods_counter
              "sensitive and uncommon methods" LOW [v] (logged v msg st)).
Proof.
  unfold _allow_methods. destruct allow_methods as [am|]; [|right; left; done].
  cbv zeta. destruct (_ || _); [|right; left; done].
  destruct (Py.format allow_methods_msg
              [url; ACCESS_CONTROL_ALLOW_METHODS; am]) as [msg|] eqn:E1.
  2:{ left. exists FormatError. intros st.
      by rewrite bind_run, py_format_run, E1. }
  destruct (negb (bool_decide (report_sensitive am = ∅))
            && negb (bool_decide (report_strange am = ∅))).
  { destruct (Py.format (msg +:+ both_methods_tail)
                [join_set (report_sensitive am); join_set (report_strange am)])
      as [msg2|] eqn:E2.
    - right; right. eexists _, _. split; [|intros st].
      2:{ rewrite bind_run, py_format_run, E1, bind_run, bind_run,
            py_format_run, E2. reflexivity. }
      reflexivity.
    - left. exists FormatError. intros st.
      by rewrite bind_run, py_format_run, E1, bind_run, bind_run,
           py_format_run, E2. }
  destruct (negb (bool_decide (report_sensitive am = ∅))).
  { destruct (Py.format (msg +:+ sensitive_methods_tail)
                [join_set (report_sensitive am)]) as [msg2|] eqn:E2.
    - right; right. eexists _, _. split; [|intros st].
      2:{ rewrite bind_run, py_format_run, E1, bind_run, bind_run,
            py_format_run, E2. reflexivity. }
      reflexivity.
    - left. exists FormatError. intros st.
      by rewrite bind_run, py_format_run, E1, bind_run, bind_run,
           py_format_run, E2. }
  destruct (Py.format (msg +:+ strange_methods_tail)
              [join_set (report_strange am)]) as [msg2|] eqn:E2.
  - right; right. eexists _, _. split; [|intros st].
    2:{ rewrite bind_run, py_format_run, E1, bind_run, bind_run,
          py_format_run, E2. reflexivity. }
    reflexivity.
  - left. exists FormatError. intros st.
    by rewrite bind_run, py_format_run, E1, bind_run, bind_run,
         py_format_run, E2.
Qed.

Lemma analysis_method_shape (analysis_method : AnalysisMethod) :
  analysis_method ∈ analysis_methods ->
  (exists e, forall st,
     analysis_method forged_req url origin response allow_origin
       allow_credentials allow_methods st = (Raise e, st))
  \/ (forall st,
        analysis_method forged_req url origin response allow_origin
          allow_credentials allow_methods st = (Return [], st))
  \/ (exists counter section sev v msg,
        is_summary v = false /\
        forall st,
          analysis_method forged_req url origin response allow_origin
            allow_credentials allow_methods st
          = _filter_report counter section sev [v] (logged v msg st)).
Proof.
  unfold analysis_methods. rewrite !elem_of_cons, elem_of_nil.
  intros [->|[->|[->|[->|[]]]]].
  - destruct universal_allow_run as [d H].
    destruct (bool_decide (allow_origin = Some "*")).
    + right; right. eexists _, _, _, _, _. split; [|exact H]. reflexivity.
    + right; left. exact H.
  - destruct origin_echo_run as [d H].
    destruct (match allow_origin with
              | Some a => Py.contains origin (Py.lower a)
              | None => false
              end).
    + right; right. eexists _, _, _, _, _. split; [|exact H].
      by destruct (credentials_allowed allow_credentials).
    + right; left. exact H.
  - destruct universal_origin_allow_creds_run as [d H].
    destruct (credentials_allowed allow_credentials
              && bool_decide (allow_origin = Some "*")).
    + right; right. eexists _, _, _, _, _. split; [|exact H]. reflexivity.
    + right; left. exact H.
  - destruct allow_methods_shape as [H|[H|(v & msg & Hv & H)]];
      [by left|by right; left|].
    right; right. by eexists _, _, _, _, _.
Qed.

Lemma analyze_server_response_run st :
  _analyze_server_response forged_req url origin response allow_origin
    allow_credentials allow_methods st
  = (r1 ← _universal_allow forged_req url origin response allow_origin
            allow_credentials allow_methods;
     r2 ← _origin_echo forged_req url origin response allow_origin
            allow_credentials allow_methods;
     r3 ← _universal_origin_allow_creds forged_req url origin response
            allow_origin allow_credentials allow_methods;
     r4 ← _allow_methods forged_req url origin response allow_origin
            allow_credentials allow_methods;
     mret (((r1 ++ r2) ++ r3) ++ r4)) st.
Proof.
  unfold _analyze_server_response, analysis_methods. cbn [foldl].
  unfold mbind, M_bind, mret, M_ret.
  destruct (_universal_allow _ _ _ _ _ _ _ st) as [[r1|e] st1]; [|reflexivity].
  destruct (_origin_echo _ _ _ _ _ _ _ st1) as [[r2|e] st2]; [|reflexivity].
  destruct (_universal_origin_allow_creds _ _ _ _ _ _ _ st2) as [[r3|e] st3];
    [|reflexivity].
  destruct (_allow_methods _ _ _ _ _ _ _ st3) as [[r4|e] st4]; reflexivity.
Qed.

(** ** The Origin-Echo and Wildcard-Allow rules *)

(** C4: [_origin_echo] fires exactly when the allow-origin header is present
    and its lower-cased value contains the probe origin as a substring.  The
    finding it stores and hands to the throttle is HIGH and named "Insecure
    Access-Control-Allow-Origin with credentials" exactly when the
    credentials header is present and its lower-cased value contains "true";
    otherwise it is LOW and named "Insecure Access-Control-Allow-Origin".
    What the method returns is the throttle's answer for that finding.  In
    the scenario of the specification the response analysis returns exactly
    one finding, the HIGH one. *)
Theorem origin_echo_rule :
  let fires :=
    match allow_origin with
    | Some a => Py.contains origin (Py.lower a)
    | None => false
    end in
  let with_credentials :=
    match allow_credentials with
    | Some c => Py.contains "true" (Py.lower c)
    | None => false
    end in
  (exists desc, forall st,
     let v := mkVuln (req_getURL forged_req) (resp_getId response)
                (if with_credentials then HIGH else LOW)
                (if with_credentials
                 then "Insecure Access-Control-Allow-Origin with credentials"
                 else "Insecure Access-Control-Allow-Origin") desc in
     let out := _origin_echo forged_req url origin response allow_origin
                  allow_credentials allow_methods st in
     out = (if fires
            then _filter_report origin_echo_counter
                   "origin echoed in allow-origin" HIGH [v] (logged v desc st)
            else (Return [], st))
     /\ fst out
        = Return (if fires
                  then throttled origin_echo_counter
                         "origin echoed in allow-origin" HIGH v st
                  else [])
     /\ kb_cors_origin (snd out)
        = kb_cors_origin st ++
          (if fires
           then v :: stored_after origin_echo_counter
                       "origin echoed in allow-origin" HIGH v st
           else []))
  /\ exists w,
       fst (_analyze_server_response scenario_req "http://x.test/a"
              "http://evil.test" scenario_resp (Some "http://evil.test")
              (Some "true") None __init__) = Return [w]
       /\ getSeverity w = HIGH
       /\ getName w = "Insecure Access-Control-Allow-Origin with credentials".
Proof.
  cbv zeta. split.
  - destruct origin_echo_run as [desc H].
    exists desc. intros st. specialize (H st). cbv zeta in H.
    split; [exact H|]. rewrite H.
    destruct (match allow_origin with
              | Some a => Py.contains origin (Py.lower a)
              | None => false
              end).
    + split; [apply filter_report_logged|apply kb_after_throttle].
    + split; [reflexivity|]. cbn [snd]. by rewrite app_nil_r.
  - eexists. split; [vm_compute; reflexivity|]. split; reflexivity.
Qed.

(** C6 as the code has it: [_universal_allow] fires exactly when the
    allow-origin header is the one-character string "*", whatever the
    origin and the other two headers are; it stores one finding, LOW, whose
    name is [Access-Control-Allow-Origin set to "*"] with DOUBLE quotes
    around the star, and hands it to the throttle with MEDIUM as the
    severity of a summary. *)
Theorem universal_allow_rule :
  exists desc, forall st,
    let v := mkVuln (req_getURL forged_req) (resp_getId response) LOW
               ("Access-Control-Allow-Origin set to " +:+ dq +:+ "*" +:+ dq)
               desc in
    let out := _universal_allow forged_req url origin response allow_origin
                 allow_credentials allow_methods st in
    out = (if bool_decide (allow_origin = Some "*")
           then _filter_report universal_allow_counter "universal allow-origin"
                  MEDIUM [v] (logged v universal_allow_msg st)
           else (Return [], st))
    /\ fst out
       = Return (if bool_decide (allow_origin = Some "*")
                 then throttled universal_allow_counter
                        "universal allow-origin" MEDIUM v st
                 else [])
    /\ kb_cors_origin (snd out)
       = kb_cors_origin st ++
         (if bool_decide (allow_origin = Some "*")
          then v :: stored_after universal_allow_counter
                      "universal allow-origin" MEDIUM v st
          else []).
Proof.
  destruct universal_allow_run as [desc H].
  exists desc. intros st. specialize (H st). cbv zeta in *.
  change ("Access-Control-Allow-Origin set to " +:+ dq +:+ "*" +:+ dq)
    with universal_allow_name.
  split; [exact H|]. rewrite H.
  case_bool_decide.
  - split; [apply filter_report_logged|apply kb_after_throttle].
  - split; [reflexivity|]. cbn [snd]. by rewrite app_nil_r.
Qed.

End Probe.

(** C6 as stated fails on the name: the finding returned for a wildcard
    response is not named with single quotes around the star. *)
Lemma universal_allow_name_single_quotes :
  exists v,
    fst (_universal_allow scenario_req "http://x.test/a" "http://evil.test"
           scenario_resp (Some "*") None None __init__) = Return [v]
    /\ getSeverity v = LOW
    /\ getName v <> "Access-Control-Allow-Origin set to '*'".
Proof.
  eexists. split; [vm_compute; reflexivity|]. split; [reflexivity|].
  vm_compute. discriminate.
Qed.

(** ** The Wildcard+Credentials rule *)

(** C5 as the code has it: [_universal_origin_allow_creds] fires exactly
    when the allow-origin header is "*" and the lower-cased credentials
    header contains "true"; its finding is INFORMATION and named "Incorrect
    withCredentials implementation".  It fires next to [_universal_allow]:
    in a fresh session a response with allow-origin "*", credentials "true"
    and no allow-methods header yields exactly the LOW wildcard finding and
    the INFORMATION finding, PROVIDED the probe origin is neither empty nor
    "*" itself (such an origin is a substring of "*", so that [_origin_echo]
    fires as well). *)
Theorem universal_origin_allow_creds_rule req url origin resp ao ac am :
  let fires :=
    match ac with
    | Some c => Py.contains "true" (Py.lower c)
    | None => false
    end && bool_decide (ao = Some "*") in
  (exists desc, forall st,
     let v := mkVuln (req_getURL req) (resp_getId resp) INFORMATION
                "Incorrect withCredentials implementation" desc in
     let out := _universal_origin_allow_creds req url origin resp ao ac am st in
     out = (if fires
            then _filter_report universal_origin_allow_creds_counter
                   "withCredentials CORS implementation error" INFORMATION [v]
                   (logged v allow_creds_msg st)
            else (Return [], st))
     /\ fst out
        = Return (if fires
                  then throttled universal_origin_allow_creds_counter
                         "withCredentials CORS implementation error"
                         INFORMATION v st
                  else [])
     /\ kb_cors_origin (snd out)
        = kb_cors_origin st ++
          (if fires
           then v :: stored_after universal_origin_allow_creds_counter
                       "withCredentials CORS implementation error"
                       INFORMATION v st
           else []))
  /\ (origin <> "" -> origin <> "*" ->
      exists v1 v2,
        fst (_analyze_server_response req url origin resp (Some "*")
               (Some "true") None __init__) = Return [v1; v2]
        /\ getSeverity v1 = LOW /\ getName v1 = universal_allow_name
        /\ getSeverity v2 = INFORMATION
        /\ getName v2 = "Incorrect withCredentials implementation").
Proof.
  cbv zeta. split.
  - destruct (universal_origin_allow_creds_run req url origin resp ao ac am)
      as [desc H].
    exists desc. intros st. specialize (H st). cbv zeta in H.
    change (match ac with
            | Some c => Py.contains "true" (Py.lower c)
            | None => false
            end) with (credentials_allowed ac).
    split; [exact H|]. rewrite H.
    destruct (credentials_allowed ac && bool_decide (ao = Some "*")).
    + split; [apply filter_report_logged|apply kb_after_throttle].
    + split; [reflexivity|]. cbn [snd]. by rewrite app_nil_r.
  - intros Hne Hstar.
    destruct (universal_allow_run req url origin resp (Some "*") (Some "true")
                None) as [d1 H1].
    destruct (origin_echo_run req url origin resp (Some "*") (Some "true")
                None) as [d2 H2].
    destruct (universal_origin_allow_creds_run req url origin resp (Some "*")
                (Some "true") None) as [d3 H3].
    cbv zeta in H1, H2, H3.
    eexists _, _. rewrite analyze_server_response_run.
    rewrite bind_run, H1. rewrite bool_decide_eq_true_2 by done.
    rewrite filter_report_logged_pass
      by (rewrite counter_value_init; unfold MAX_REPEATED_REPORTS; lia).
    rewrite bind_run, H2.
    change (Py.lower "*") with "*". rewrite (contains_star origin Hne Hstar).
    rewrite bind_run, H3. rewrite bool_decide_eq_true_2 by done.
    change (credentials_allowed (Some "true") && true) with true. cbv iota.
    rewrite filter_report_logged_pass.
    2:{ rewrite counter_value_set_other by done.
        rewrite counter_value_logged, counter_value_init.
        unfold MAX_REPEATED_REPORTS; lia. }
    rewrite bind_run. cbn [_allow_methods]. cbn [fst]. unfold mret, M_ret.
    cbn [fst app]. repeat split; reflexivity.
Qed.

Lemma universal_origin_allow_creds_rule_witness :
  ("http://w3af.sourceforge.net/" <> "" /\ "http://w3af.sourceforge.net/" <> "*")
  /\ exists v1 v2,
       fst (_analyze_server_response scenario_req "http://x.test/a"
              "http://w3af.sourceforge.net/" scenario_resp (Some "*")
              (Some "true") None __init__) = Return [v1; v2]
       /\ getSeverity v1 = LOW /\ getName v1 = universal_allow_name
       /\ getSeverity v2 = INFORMATION
       /\ getName v2 = "Incorrect withCredentials implementation".
Proof.
  split; [split; discriminate|].
  apply (universal_origin_allow_creds_rule scenario_req "http://x.test/a"
           "http://w3af.sourceforge.net/" scenario_resp None None None);
    discriminate.
Defined.

(** C5 as stated fails: with the probe origin "*" the same response yields
    three findings, LOW, HIGH (the origin is echoed) and INFORMATION. *)
Lemma wildcard_credentials_three_findings :
  (exists v1 v2 v3,
     fst (_analyze_server_response scenario_req "http://x.test/a" "*"
            scenario_resp (Some "*") (Some "true") None __init__)
     = Return [v1; v2; v3]
     /\ getSeverity v1 = LOW /\ getSeverity v2 = HIGH
     /\ getSeverity v3 = INFORMATION)
  /\ ~ exists v1 v2,
       fst (_analyze_server_response scenario_req "http://x.test/a" "*"
              scenario_resp (Some "*") (Some "true") None __init__)
       = Return [v1; v2].
Proof.
  split.
  - eexists _, _, _. split; [vm_compute; reflexivity|]. by repeat split.
  - intros (v1 & v2 & H). vm_compute in H. discriminate.
Qed.

(** ** The Methods rule *)

Lemma sets_post_get_trace :
  allow_methods_set "post, Get, TRACE" = {["POST"; "GET"; "TRACE"]}
  /\ report_sensitive "post, Get, TRACE" = ∅
  /\ report_strange "post, Get, TRACE" = {["TRACE"]}.
Proof. repeat split; vm_compute; reflexivity. Qed.

(** For this header value the method formats the uncommon-methods message
    and, unless [%] raises, stores and throttles the LOW finding. *)
Lemma allow_methods_post_get_trace req url origin resp ao ac st :
  _allow_methods req url origin resp ao ac (Some "post, Get, TRACE") st
  = match Py.format (allow_methods_text url "post, Get, TRACE"
                     +:+ strange_methods_tail) ["TRACE"] with
    | Some desc =>
        let v := mkVuln (req_getURL req) (resp_getId resp) LOW
                   strange_methods_name desc in
        _filter_report allow_methods_counter "sensitive and uncommon methods"
          LOW [v] (logged v desc st)
    | None => (Raise FormatError, st)
    end.
Proof.
  unfold _allow_methods. cbv zeta.
  destruct sets_post_get_trace as (_ & -> & ->).
  replace (join_set {["TRACE"]}) with "TRACE" by (vm_compute; reflexivity).
  replace (bool_decide (0 < size (∅ : gset string))%nat) with false
    by (vm_compute; reflexivity).
  replace (bool_decide (0 < size ({["TRACE"]} : gset string))%nat) with true
    by (vm_compute; reflexivity).
  replace (bool_decide ((∅ : gset string) = ∅)) with true
    by (vm_compute; reflexivity).
  cbn [orb negb andb].
  rewrite bind_run, py_format_run, format_allow_methods_msg.
  cbv iota. rewrite bind_run, bind_run, py_format_run.
  by destruct (Py.format _ ["TRACE"]).
Qed.

(** With a URL text free of percent signs the method fires as the
    specification expects, in every state. *)
Lemma allow_methods_post_get_trace_plain_url req url origin resp ao ac st :
  Py.contains "%" url = false ->
  let desc :=
    allow_methods_text url "post, Get, TRACE"
    +:+ " since it allows the following uncommon HTTP methods: TRACE." in
  let v := mkVuln (req_getURL req) (resp_getId resp) LOW
             "Uncommon CORS methods enabled" desc in
  _allow_methods req url origin resp ao ac (Some "post, Get, TRACE") st
  = _filter_report allow_methods_counter "sensitive and uncommon methods" LOW
      [v] (logged v desc st)
  /\ fst (_allow_methods req url origin resp ao ac (Some "post, Get, TRACE")
            st)
     = Return (throttled allow_methods_counter
                 "sensitive and uncommon methods" LOW v st).
Proof.
  intros Hurl. cbv zeta.
  rewrite allow_methods_post_get_trace, (format_post_get_trace url Hurl).
  cbv zeta. split; [reflexivity|apply filter_report_logged].
Qed.

(** C7: for the header value "post, Get, TRACE" the tokens, split on commas,
    trimmed, upper-cased and collected in a set, are POST, GET and TRACE;
    no sensitive method is among them and TRACE is the only uncommon one.
    For the probe of the scenarios the method returns one LOW finding named
    "Uncommon CORS methods enabled" whose description is the
    uncommon-methods sentence.  For the same header value and the URL
    [http://x.test/a%20b] the method RAISES and builds no finding: the
    message is passed through [%] a second time with the URL already in
    it, and [%20b] is no conversion. *)
Theorem allow_methods_post_get_trace_rule :
  allow_methods_set "post, Get, TRACE" = {["POST"; "GET"; "TRACE"]}
  /\ report_sensitive "post, Get, TRACE" = ∅
  /\ report_strange "post, Get, TRACE" = {["TRACE"]}
  /\ fst (_allow_methods scenario_req "http://x.test/a" "http://evil.test"
            scenario_resp None None (Some "post, Get, TRACE") __init__)
     = Return
         [mkVuln "http://x.test/a" 1 LOW "Uncommon CORS methods enabled"
            (allow_methods_text "http://x.test/a" "post, Get, TRACE" +:+
             " since it allows the following uncommon HTTP methods: TRACE.")]
  /\ _allow_methods (mkRequest "http://x.test/a%20b") "http://x.test/a%20b"
       "http://evil.test" scenario_resp None None (Some "post, Get, TRACE")
       __init__
     = (Raise FormatError, __init__).
Proof.
  destruct sets_post_get_trace as (H1 & H2 & H3).
  split; [exact H1|]. split; [exact H2|]. split; [exact H3|]. split.
  - apply (allow_methods_post_get_trace_plain_url scenario_req
             "http://x.test/a"). reflexivity.
  - rewrite allow_methods_post_get_trace.
    replace (Py.format (allow_methods_text "http://x.test/a%20b"
                          "post, Get, TRACE" +:+ strange_methods_tail)
               ["TRACE"]) with (@None string) by (vm_compute; reflexivity).
    reflexivity.
Qed.

(** ** Configuration *)

(** C8: [set_options] raises [w3afException] exactly when the value is
    [None] or consists of whitespace only (its [strip()] is empty; the empty
    string included); otherwise it returns.  Either way the attribute holds
    the value, and nothing else changes. *)
Theorem set_options_outcome value st :
  let rejected :=
    match value with
    | None => true
    | Some s => all_space s
    end in
  fst (set_options value st)
  = (if rejected then Raise (w3afException set_options_msg) else Return tt)
  /\ (match value with
      | Some s => all_space s = bool_decide (Py.strip s = "")
      | None => True
      end)
  /\ snd (set_options value st) = snd (set_origin_header_value value st)
  /\ origin_header_value (snd (set_options value st)) = value.
Proof.
  cbv zeta. unfold set_options.
  rewrite bind_run. cbn [set_origin_header_value]. rewrite bind_run.
  cbn [get_origin_header_value origin_header_value].
  destruct value as [s|]; [|by repeat split].
  pose proof (strip_empty s) as Hs.
  case_bool_decide as Hlen; rewrite length_zero_empty in Hlen.
  - pose proof (proj1 Hs Hlen) as Ha. rewrite Ha.
    rewrite bool_decide_eq_true_2 by done. by repeat split.
  - destruct (all_space s) eqn:E.
    + exfalso. apply Hlen. by apply Hs.
    + rewrite bool_decide_eq_false_2 by done. by repeat split.
Qed.

(** ** Findings are stored before they are throttled *)

(** C10: an analysis method that fires (in a fresh session it returns its
    finding [v]) stores [v] in the knowledge base and prints its message
    before it calls the throttle, whatever the throttle then decides.  When
    the kind is exhausted the method returns nothing and [v] is stored all
    the same; when the throttle answers with the summary, [v] is stored
    first and the summary after it. *)
Theorem finding_stored_before_throttle (analysis_method : AnalysisMethod)
    req url origin resp ao ac am v :
  analysis_method ∈ analysis_methods ->
  fst (analysis_method req url origin resp ao ac am __init__) = Return [v] ->
  exists counter section sev msg, forall st,
    let out := analysis_method req url origin resp ao ac am st in
    out = _filter_report counter section sev [v] (logged v msg st)
    /\ fst out = Return (throttled counter section sev v st)
    /\ kb_cors_origin (snd out)
       = kb_cors_origin st ++ v :: stored_after counter section sev v st
    /\ (exists more,
          om_vulnerability (snd out) = om_vulnerability st ++ msg :: more)
    /\ (exhausted counter section st ->
        fst out = Return [] /\
        kb_cors_origin (snd out) = kb_cors_origin st ++ [v])
    /\ (MAX_REPEATED_REPORTS < counter_value st counter ->
        section ∉ _reported_global st ->
        fst out = Return [summary_vuln v sev (summary_desc section)] /\
        kb_cors_origin (snd out)
        = kb_cors_origin st ++ [v; summary_vuln v sev (summary_desc section)]).
Proof.
  intros Hin Hfresh.
  destruct (analysis_method_shape req url origin resp ao ac am analysis_method
              Hin) as [[e H]|[H|(counter & section & sev & w & msg & _ & H)]].
  - rewrite H in Hfresh. discriminate.
  - rewrite H in Hfresh. discriminate.
  - assert (w = v) as ->.
    { rewrite H, filter_report_logged in Hfresh. unfold throttled in Hfresh.
      rewrite counter_value_init in Hfresh.
      rewrite bool_decide_eq_true_2 in Hfresh
        by (unfold MAX_REPEATED_REPORTS; lia).
      by injection Hfresh. }
    exists counter, section, sev, msg. intros st. cbv zeta. rewrite H.
    split; [reflexivity|].
    split; [apply filter_report_logged|].
    split; [apply kb_after_throttle|].
    split; [apply om_after_throttle|].
    rewrite filter_report_logged, kb_after_throttle.
    unfold stored_after, throttled. split.
    + intros [Hn Hs].
      rewrite bool_decide_eq_false_2 by lia.
      by rewrite (bool_decide_eq_true_2 _ Hs).
    + intros Hn Hs.
      rewrite bool_decide_eq_false_2 by lia.
      by rewrite (bool_decide_eq_false_2 _ Hs).
Qed.

Lemma finding_stored_before_throttle_witness :
  (_origin_echo ∈ analysis_methods
   /\ fst (_origin_echo scenario_req "http://x.test/a" "http://evil.test"
             scenario_resp (Some "http://evil.test") (Some "true") None
             __init__) = Return [scenario_finding])
  /\ exists counter section sev msg, forall st,
       let out := _origin_echo scenario_req "http://x.test/a"
                    "http://evil.test" scenario_resp
                    (Some "http://evil.test") (Some "true") None st in
       out = _filter_report counter section sev [scenario_finding]
               (logged scenario_finding msg st)
       /\ fst out
          = Return (throttled counter section sev scenario_finding st)
       /\ kb_cors_origin (snd out)
          = kb_cors_origin st ++
            scenario_finding
            :: stored_after counter section sev scenario_finding st
       /\ (exists more,
             om_vulnerability (snd out) = om_vulnerability st ++ msg :: more)
       /\ (exhausted counter section st ->
           fst out = Return [] /\
           kb_cors_origin (snd out)
           = kb_cors_origin st ++ [scenario_finding])
       /\ (MAX_REPEATED_REPORTS < counter_value st counter ->
           section ∉ _reported_global st ->
           fst out
           = Return [summary_vuln scenario_finding sev
                       (summary_desc section)] /\
           kb_cors_origin (snd out)
           = kb_cors_origin st ++
             [scenario_finding;
              summary_vuln scenario_finding sev (summary_desc section)]).
Proof.
  assert (Hin : _origin_echo ∈ analysis_methods).
  { unfold analysis_methods. apply elem_of_cons. right.
    apply elem_of_cons. by left. }
  assert (Hfresh :
    fst (_origin_echo scenario_req "http://x.test/a" "http://evil.test"
           scenario_resp (Some "http://evil.test") (Some "true") None
           __init__) = Return [scenario_finding]).
  { vm_compute. reflexivity. }
  split; [by split|].
  exact (finding_stored_before_throttle _origin_echo scenario_req
           "http://x.test/a" "http://evil.test" scenario_resp
           (Some "http://evil.test") (Some "true") None scenario_finding
           Hin Hfresh).
Defined.

(** * Further properties of the throttle *)

Lemma final_nil st : final [] st = st.
Proof. reflexivity. Qed.

Lemma final_cons k calls st :
  final (k :: calls) st = final calls (call_post k st).
Proof.
  destruct (session_returns calls (call_post k st)) as (outs & st' & E).
  unfold final, session in *. simpl.
  by rewrite bind_run, run_call_eq, bind_run, E.
Qed.

Lemma outputs_app calls more st :
  outputs (calls ++ more) st
  = outputs calls st ++ outputs more (final calls st).
Proof.
  revert st. induction calls as [|k calls IH]; intros st; [reflexivity|].
  cbn [app]. by rewrite !outputs_cons, final_cons, IH.
Qed.

Lemma exhausted_final counter section calls st :
  exhausted counter section st -> exhausted counter section (final calls st).
Proof.
  revert st. induction calls as [|k calls IH]; intros st H; [done|].
  rewrite final_cons. by apply IH, exhausted_call_post.
Qed.

Lemma exhausted_replicate counter section sev resp n st :
  exhausted counter section st ->
  outputs (replicate n (mkCall counter section sev resp)) st = replicate n [].
Proof.
  revert st. induction n as [|n IH]; intros st H; [reflexivity|].
  cbn [replicate]. rewrite outputs_cons.
  rewrite (exhausted_call_out counter section) by (done || apply of_kind_same).
  by rewrite IH by by apply exhausted_call_post.
Qed.

(** After five reports of one kind a fresh session is exhausted for it. *)
Lemma exhausted_fresh_five counter section sev v :
  exhausted counter section
    (final (replicate 5 (mkCall counter section sev [v])) __init__).
Proof.
  set (k := mkCall counter section sev [v]).
  assert (Hstep : forall st n,
    counter_value st counter = n -> n ≤ MAX_REPEATED_REPORTS ->
    counter_value (call_post k st) counter = n + 1 /\
    _reported_global (call_post k st) = _reported_global st).
  { intros st n Hn Hle. unfold k. rewrite call_post_pass by lia.
    rewrite counter_value_set_same, reported_set_counter. by subst. }
  unfold MAX_REPEATED_REPORTS in Hstep.
  cbn [replicate]. rewrite !final_cons, final_nil.
  pose proof (counter_value_init counter) as H0.
  destruct (Hstep _ _ H0 ltac:(lia)) as (H1 & R1).
  destruct (Hstep _ _ H1 ltac:(lia)) as (H2 & R2).
  destruct (Hstep _ _ H2 ltac:(lia)) as (H3 & R3).
  destruct (Hstep _ _ H3 ltac:(lia)) as (H4 & R4).
  set (st4 := call_post k (call_post k (call_post k (call_post k __init__))))
    in *.
  assert (R : _reported_global st4 = ∅) by (by rewrite R4, R3, R2, R1).
  assert (E5 : run_call k st4
    = (Return [summary_vuln v sev (summary_desc section)],
       summarised section (summary_vuln v sev (summary_desc section)) st4)).
  { unfold run_call, k.
    cbn [call_counter call_section call_severity call_response].
    apply filter_report_summary.
    - unfold MAX_REPEATED_REPORTS. lia.
    - rewrite R. apply not_elem_of_empty. }
  unfold call_post at 1. rewrite E5. cbn [snd].
  split; autorewrite with fields.
  - unfold MAX_REPEATED_REPORTS. lia.
  - apply elem_of_union_l. by apply elem_of_singleton.
Qed.

Lemma returned_for_replicate counter section sev resp n outs :
  returned_for counter section (replicate n (mkCall counter section sev resp))
    outs
  = concat (take n outs).
Proof.
  revert outs. induction n as [|n IH]; intros [|out outs]; try reflexivity.
  cbn [replicate returned_for take concat]. by rewrite of_kind_same, IH.
Qed.

Lemma concat_replicate_nil {A} n : concat (replicate n (@nil A)) = [].
Proof. induction n as [|n IH]; [reflexivity|]. exact IH. Qed.

(** X1: any number [n] of reports of one kind in a fresh session, one raw
    finding each.  The first four are returned as they are, the fifth is
    answered with the summary, every further one with the empty list; so
    [min n 5] findings are returned in all. *)
Theorem fresh_session_n_reports counter section sev v n :
  let calls := replicate n (mkCall counter section sev [v]) in
  fst (session calls __init__)
  = Return (take n [[v]; [v]; [v]; [v];
                    [summary_vuln v sev (summary_desc section)]]
            ++ replicate (n - 5) [])
  /\ length (returned_for counter section calls (outputs calls __init__))
     = Nat.min n 5.
Proof.
  cbv zeta. set (k := mkCall counter section sev [v]).
  assert (E : outputs (replicate n k) __init__
              = take n [[v]; [v]; [v]; [v];
                        [summary_vuln v sev (summary_desc section)]]
                ++ replicate (n - 5) []).
  { destruct (decide (n ≤ 5)%nat) as [Hle|Hgt].
    - replace (n - 5)%nat with 0%nat by lia. rewrite app_nil_r.
      replace (replicate n k) with (take n (replicate 6 k)).
      + rewrite outputs_take. cbn [replicate]. unfold k.
        rewrite outputs_fresh_six.
        do 6 (destruct n as [|n]; [reflexivity|]). lia.
      + rewrite take_replicate. f_equal. lia.
    - replace n with (5 + (n - 5))%nat at 1 by lia.
      rewrite replicate_add, outputs_app. unfold k.
      rewrite (exhausted_replicate counter section sev [v] (n - 5))
        by apply exhausted_fresh_five.
      f_equal.
      change (replicate 5 (mkCall counter section sev [v]))
        with (take 5 (replicate 6 (mkCall counter section sev [v]))).
      rewrite outputs_take. cbn [replicate].
      rewrite outputs_fresh_six.
      do 5 (destruct n as [|n]; [lia|]). cbn [take]. by destruct n. }
  rewrite session_outputs, E. split; [reflexivity|].
  unfold k. rewrite returned_for_replicate, take_ge.
  2:{ rewrite length_app, length_take, length_replicate. cbn [length]. lia. }
  rewrite concat_app, concat_replicate_nil, app_nil_r.
  do 5 (destruct n as [|n]; [reflexivity|]). by destruct n.
Qed.

(** X2: a session may start in any state and interleave calls of all kinds;
    when every call carries at most one raw finding, as the rules' calls
    do, the findings returned for one kind number at most what is left of
    [MAX_REPEATED_REPORTS + 1] above its counter, plus one for the summary
    if the section is not yet summarised.  In a fresh session that makes
    five. *)
Theorem session_kind_bound counter section calls st :
  Forall (fun k => (length (call_response k) ≤ 1)%nat) calls ->
  Z.of_nat (length (returned_for counter section calls (outputs calls st)))
  ≤ Z.max 0 (MAX_REPEATED_REPORTS + 1 - counter_value st counter)
    + (if bool_decide (section ∈ _reported_global st) then 0 else 1)
  /\ Z.of_nat (length (returned_for counter section calls
                         (outputs calls __init__))) ≤ 5.
Proof.
  intros H. split.
  - by apply returned_within_budget.
  - by apply returned_fresh_bound.
Qed.

Lemma session_kind_bound_witness :
  let calls :=
    [echo_call;
     mkCall universal_allow_counter "universal allow-origin" MEDIUM [];
     echo_call; echo_call; echo_call; echo_call; echo_call] in
  Forall (fun k => (length (call_response k) ≤ 1)%nat) calls
  /\ (Z.of_nat (length (returned_for origin_echo_counter
                         "origin echoed in allow-origin" calls
                         (outputs calls __init__)))
      ≤ Z.max 0 (MAX_REPEATED_REPORTS + 1
                 - counter_value __init__ origin_echo_counter)
        + (if bool_decide ("origin echoed in allow-origin"
                           ∈ _reported_global __init__) then 0 else 1)
      /\ Z.of_nat (length (returned_for origin_echo_counter
                            "origin echoed in allow-origin" calls
                            (outputs calls __init__))) ≤ 5).
Proof.
  split; [repeat constructor|].
  apply session_kind_bound. repeat constructor.
Defined.

Lemma same_for_kind_refl counter section st :
  same_for_kind counter section st st.
Proof. by split. Qed.

(** A call of a kind depends on the state through that kind's counter and
    section alone. *)
Lemma call_same_for_kind counter section k st st' :
  of_kind counter section k = true ->
  same_for_kind counter section st st' ->
  call_out k st = call_out k st'
  /\ same_for_kind counter section (call_post k st) (call_post k st').
Proof.
  intros [<- <-]%of_kind_true [Hc Hs].
  pose proof (call_out_post k st) as E.
  pose proof (call_out_post k st') as E'.
  destruct (call_response k) as [|first rest].
  - injection E as -> ->. injection E' as -> ->. split; [done|by split].
  - rewrite <- Hc in E'.
    destruct (decide (counter_value st (call_counter k) ≤ MAX_REPEATED_REPORTS))
      as [Hle|Hgt].
    + rewrite (bool_decide_eq_true_2 _ Hle) in E, E'.
      injection E as -> ->. injection E' as -> ->.
      split; [reflexivity|]. split; [|by rewrite !reported_set_counter].
      by rewrite !counter_value_set_same.
    + rewrite (bool_decide_eq_false_2 _ Hgt) in E, E'.
      destruct (decide (call_section k ∈ _reported_global st)) as [Hin|Hnin].
      * rewrite (bool_decide_eq_true_2 _ Hin) in E.
        rewrite (bool_decide_eq_true_2 _ (proj1 Hs Hin)) in E'.
        injection E as -> ->. injection E' as -> ->. split; [done|by split].
      * rewrite (bool_decide_eq_false_2 _ Hnin) in E.
        rewrite bool_decide_eq_false_2 in E' by (intros H; by apply Hnin, Hs).
        cbv zeta in E, E'.
        injection E as -> ->. injection E' as -> ->.
        split; [reflexivity|]. split; autorewrite with fields; [lia|].
        split; intros _; apply elem_of_union_l; by apply elem_of_singleton.
Qed.

(** A call with another counter and another section leaves a kind alone. *)
Lemma call_other_kind counter section k st :
  call_counter k ≠ counter -> call_section k ≠ section ->
  same_for_kind counter section (call_post k st) st.
Proof.
  intros Hc Hs. call_cases k st; try apply same_for_kind_refl.
  - split; [by rewrite counter_value_set_other|by rewrite reported_set_counter].
  - split; autorewrite with fields; [done|].
    rewrite elem_of_union, elem_of_singleton. split; [|by right].
    intros [->|H]; [done|exact H].
Qed.

Lemma returned_for_independent counter section calls st st' :
  Forall (fun k => of_kind counter section k = true
                   \/ (call_counter k ≠ counter /\ call_section k ≠ section))
    calls ->
  same_for_kind counter section st st' ->
  returned_for counter section calls (outputs calls st)
  = concat (outputs (List.filter (of_kind counter section) calls) st').
Proof.
  revert st st'. induction calls as [|k calls IH]; intros st st' Hall Hsame;
    [reflexivity|].
  apply Forall_cons in Hall as [Hk Hall].
  rewrite outputs_cons. cbn [returned_for List.filter].
  destruct (of_kind counter section k) eqn:Hkind.
  - destruct (call_same_for_kind counter section k st st' Hkind Hsame)
      as [Eout Hpost].
    rewrite outputs_cons. cbn [concat]. rewrite Eout. f_equal.
    by apply IH.
  - destruct Hk as [Hk|[Hc Hs]]; [discriminate|].
    cbn [app]. apply IH; [done|].
    destruct (call_other_kind counter section k st Hc Hs) as [H1 H2].
    destruct Hsame as [H3 H4]. split; [congruence|]. by rewrite H2.
Qed.

(** X3: the kinds do not interfere.  In a session whose other calls use
    another counter and another section (each rule has its own pair), what
    is returned to the calls of one kind is what the session of these calls
    alone returns. *)
Theorem throttle_kinds_independent counter section calls st :
  Forall (fun k => of_kind counter section k = true
                   \/ (call_counter k ≠ counter /\ call_section k ≠ section))
    calls ->
  returned_for counter section calls (outputs calls st)
  = concat (outputs (List.filter (of_kind counter section) calls) st).
Proof.
  intros H. apply returned_for_independent; [done|apply same_for_kind_refl].
Qed.

Lemma throttle_kinds_independent_witness :
  let other :=
    mkCall universal_allow_counter "universal allow-origin" MEDIUM
      [scenario_finding] in
  let calls :=
    [other; echo_call; other; other; echo_call; other; other; other;
     echo_call] in
  Forall (fun k => of_kind origin_echo_counter "origin echoed in allow-origin"
                     k = true
                   \/ (call_counter k ≠ origin_echo_counter
                       /\ call_section k ≠ "origin echoed in allow-origin"))
    calls
  /\ returned_for origin_echo_counter "origin echoed in allow-origin" calls
       (outputs calls __init__)
     = concat (outputs
                 (List.filter
                    (of_kind origin_echo_counter
                       "origin echoed in allow-origin") calls) __init__).
Proof.
  assert (H : Forall
    (fun k => of_kind origin_echo_counter "origin echoed in allow-origin"
                k = true
              \/ (call_counter k ≠ origin_echo_counter
                  /\ call_section k ≠ "origin echoed in allow-origin"))
    [mkCall universal_allow_counter "universal allow-origin" MEDIUM
       [scenario_finding]; echo_call;
     mkCall universal_allow_counter "universal allow-origin" MEDIUM
       [scenario_finding];
     mkCall universal_allow_counter "universal allow-origin" MEDIUM
       [scenario_finding]; echo_call;
     mkCall universal_allow_counter "universal allow-origin" MEDIUM
       [scenario_finding];
     mkCall universal_allow_counter "universal allow-origin" MEDIUM
       [scenario_finding];
     mkCall universal_allow_counter "universal allow-origin" MEDIUM
       [scenario_finding]; echo_call]).
  { repeat (constructor;
            [first [left; reflexivity | right; split; cbn; discriminate]|]).
    constructor. }
  split; [exact H|].
  exact (throttle_kinds_independent _ _ _ __init__ H).
Defined.

(** * Further properties of the response analysis *)

Lemma grows_refl st : grows st st.
Proof. by repeat split. Qed.

Lemma grows_trans st1 st2 st3 : grows st1 st2 -> grows st2 st3 -> grows st1 st3.
Proof.
  intros (A1 & A2 & A3 & A4 & A5) (B1 & B2 & B3 & B4 & B5).
  split; [congruence|]. split; [set_solver|].
  split; [intros c; specialize (A3 c); specialize (B3 c); lia|].
  split; by etrans.
Qed.

Lemma grows_logged v msg st : grows st (logged v msg st).
Proof.
  split; [reflexivity|]. split; [done|].
  split; [intros c; rewrite counter_value_logged; lia|].
  split; [rewrite kb_logged|rewrite om_logged]; by apply prefix_app_r.
Qed.

Lemma grows_filter_report counter section sev resp st :
  grows st (snd (_filter_report counter section sev resp st)).
Proof.
  rewrite filter_report_run. destruct resp as [|first rest];
    [apply grows_refl|].
  repeat case_bool_decide; cbv zeta; cbn [snd]; try apply grows_refl.
  - split; [reflexivity|]. split; [done|]. split; [|done].
    intros c. destruct (decide (c = counter)) as [->|Hne].
    + rewrite counter_value_set_same. lia.
    + rewrite counter_value_set_other by done. lia.
  - split; [reflexivity|]. split; [rewrite reported_summarised; set_solver|].
    split; [intros c; rewrite counter_value_summarised; lia|].
    split; [rewrite kb_summarised|rewrite om_summarised];
      by apply prefix_app_r.
Qed.

Section Response.

Variables (forged_req : Request) (url origin : string) (response : Response).
Variables (allow_origin allow_credentials allow_methods : option string).

Lemma method_grows (analysis_method : AnalysisMethod) st :
  analysis_method ∈ analysis_methods ->
  grows st (snd (analysis_method forged_req url origin response allow_origin
                   allow_credentials allow_methods st)).
Proof.
  intros Hin.
  destruct (analysis_method_shape forged_req url origin response allow_origin
              allow_credentials allow_methods analysis_method Hin)
    as [[e H]|[H|(c & s & sev & v & msg & _ & H)]]; rewrite H.
  - apply grows_refl.
  - apply grows_refl.
  - eapply grows_trans; [apply grows_logged|apply grows_filter_report].
Qed.

(** What a method returns is at most one finding, and it is stored. *)
Lemma method_returned_stored (analysis_method : AnalysisMethod) st :
  analysis_method ∈ analysis_methods ->
  match fst (analysis_method forged_req url origin response allow_origin
               allow_credentials allow_methods st) with
  | Return l =>
      (length l ≤ 1)%nat
      /\ Forall (fun v => v ∈ kb_cors_origin
                   (snd (analysis_method forged_req url origin response
                           allow_origin allow_credentials allow_methods st)))
           l
  | Raise _ => True
  end.
Proof.
  intros Hin.
  destruct (analysis_method_shape forged_req url origin response allow_origin
              allow_credentials allow_methods analysis_method Hin)
    as [[e H]|[H|(c & s & sev & v & msg & _ & H)]]; rewrite H.
  - done.
  - cbn. split; [lia|constructor].
  - rewrite filter_report_logged, kb_after_throttle.
    unfold stored_after, throttled.
    repeat case_bool_decide; cbn [length]; (split; [lia|]);
      repeat constructor; rewrite elem_of_app, !elem_of_cons; auto.
Qed.

Lemma first_three_return (analysis_method : AnalysisMethod) st :
  analysis_method ∈ [_universal_allow; _origin_echo;
                      _universal_origin_allow_creds] ->
  exists l, fst (analysis_method forged_req url origin response allow_origin
                   allow_credentials allow_methods st) = Return l.
Proof.
  rewrite !elem_of_cons, elem_of_nil. intros [->|[->|[->|[]]]].
  - destruct (universal_allow_run forged_req url origin response allow_origin
                allow_credentials allow_methods) as [d H].
    rewrite H. case_bool_decide; [|by eexists].
    rewrite filter_report_logged. by eexists.
  - destruct (origin_echo_run forged_req url origin response allow_origin
                allow_credentials allow_methods) as [d H].
    rewrite H. destruct (match allow_origin with
                         | Some a => Py.contains origin (Py.lower a)
                         | None => false
                         end); [|by eexists].
    rewrite filter_report_logged. by eexists.
  - destruct (universal_origin_allow_creds_run forged_req url origin response
                allow_origin allow_credentials allow_methods) as [d H].
    rewrite H. destruct (_ && _); [|by eexists].
    rewrite filter_report_logged. by eexists.
Qed.

End Response.

Lemma in_analysis_methods :
  _universal_allow ∈ analysis_methods /\ _origin_echo ∈ analysis_methods
  /\ _universal_origin_allow_creds ∈ analysis_methods
  /\ _allow_methods ∈ analysis_methods.
Proof. unfold analysis_methods. rewrite !elem_of_cons. auto 10. Qed.

Lemma kb_kept st st' l :
  grows st st' ->
  Forall (fun v => v ∈ kb_cors_origin st) l ->
  Forall (fun v => v ∈ kb_cors_origin st') l.
Proof.
  intros (_ & _ & _ & [k ->] & _) H. eapply Forall_impl; [exact H|].
  intros v Hv. apply elem_of_app. by left.
Qed.

Lemma analysis_grows req url origin resp ao ac am st :
  grows st (snd (_analyze_server_response req url origin resp ao ac am st)).
Proof.
  destruct in_analysis_methods as (I1 & I2 & I3 & I4).
  rewrite analyze_server_response_run.
  unfold mbind, M_bind, mret, M_ret.
  pose proof (method_grows req url origin resp ao ac am _ st I1) as G1.
  destruct (_universal_allow _ _ _ _ _ _ _ st) as [[r1|e] st1];
    cbn [snd] in *; [|exact G1].
  pose proof (method_grows req url origin resp ao ac am _ st1 I2) as G2.
  destruct (_origin_echo _ _ _ _ _ _ _ st1) as [[r2|e] st2];
    cbn [snd] in *; [|by eapply grows_trans].
  pose proof (method_grows req url origin resp ao ac am _ st2 I3) as G3.
  destruct (_universal_origin_allow_creds _ _ _ _ _ _ _ st2) as [[r3|e] st3];
    cbn [snd] in *; [|by eapply grows_trans, grows_trans].
  pose proof (method_grows req url origin resp ao ac am _ st3 I4) as G4.
  destruct (_allow_methods _ _ _ _ _ _ _ st3) as [[r4|e] st4];
    cbn [snd] in *; eapply grows_trans, grows_trans, grows_trans; eauto.
Qed.

(** X4: analysing a response never loses anything, whether it returns or
    raises: the configured origin is untouched, no section leaves
    [_reported_global], no counter goes down, and the knowledge base and
    the output keep their entries, new ones coming at the end. *)
Theorem analyze_server_response_grows req url origin resp ao ac am st :
  let st' := snd (_analyze_server_response req url origin resp ao ac am st) in
  origin_header_value st' = origin_header_value st
  /\ _reported_global st ⊆ _reported_global st'
  /\ (forall counter, counter_value st counter ≤ counter_value st' counter)
  /\ kb_cors_origin st `prefix_of` kb_cors_origin st'
  /\ om_vulnerability st `prefix_of` om_vulnerability st'.
Proof. exact (analysis_grows req url origin resp ao ac am st). Qed.

(** X5: analysing a response returns at most four findings, one per
    method, and every finding it returns (individual or summary) is in the
    knowledge base by then. *)
Theorem analyze_server_response_returned req url origin resp ao ac am st :
  match fst (_analyze_server_response req url origin resp ao ac am st) with
  | Return l =>
      (length l ≤ 4)%nat
      /\ Forall (fun v =>
                   v ∈ kb_cors_origin
                         (snd (_analyze_server_response req url origin resp
                                 ao ac am st))) l
  | Raise _ => True
  end.
Proof.
  destruct in_analysis_methods as (I1 & I2 & I3 & I4).
  rewrite analyze_server_response_run.
  unfold mbind, M_bind, mret, M_ret.
  pose proof (method_returned_stored req url origin resp ao ac am _ st I1) as S1.
  destruct (_universal_allow _ _ _ _ _ _ _ st) as [[r1|e] st1];
    cbn [fst snd] in *; [|done].
  pose proof (method_returned_stored req url origin resp ao ac am _ st1 I2)
    as S2.
  pose proof (method_grows req url origin resp ao ac am _ st1 I2) as G2.
  destruct (_origin_echo _ _ _ _ _ _ _ st1) as [[r2|e] st2];
    cbn [fst snd] in *; [|done].
  pose proof (method_returned_stored req url origin resp ao ac am _ st2 I3)
    as S3.
  pose proof (method_grows req url origin resp ao ac am _ st2 I3) as G3.
  destruct (_universal_origin_allow_creds _ _ _ _ _ _ _ st2)
    as [[r3|e] st3]; cbn [fst snd] in *; [|done].
  pose proof (method_returned_stored req url origin resp ao ac am _ st3 I4)
    as S4.
  pose proof (method_grows req url origin resp ao ac am _ st3 I4) as G4.
  destruct (_allow_methods _ _ _ _ _ _ _ st3) as [[r4|e] st4];
    cbn [fst snd] in *; [|done].
  destruct S1 as [L1 F1], S2 as [L2 F2], S3 as [L3 F3], S4 as [L4 F4].
  split; [rewrite !length_app; lia|].
  rewrite !Forall_app. repeat split; [| | |done].
  - by eapply kb_kept, kb_kept, kb_kept.
  - by eapply kb_kept, kb_kept.
  - by eapply kb_kept.
Qed.

Lemma no_percent_app x y :
  Py.contains "%" x = false -> Py.contains "%" y = false ->
  Py.contains "%" (x +:+ y) = false.
Proof.
  intros Hx Hy. induction x as [|c r IH]; [exact Hy|].
  apply contains_percent_cons in Hx as [Hc Hr].
  change (String.prefix "%" (String c (r +:+ y))
          || Py.contains "%" (r +:+ y) = false).
  rewrite (IH Hr), orb_false_r.
  destruct c as [[] [] [] [] [] [] [] []]; try reflexivity.
  by destruct Hc.
Qed.

Lemma no_percent_allow_methods_text url a :
  Py.contains "%" url = false -> Py.contains "%" a = false ->
  Py.contains "%" (allow_methods_text url a) = false.
Proof.
  intros Hu Ha. unfold allow_methods_text.
  repeat (apply no_percent_app; [first [exact Hu | exact Ha | reflexivity]|]).
  reflexivity.
Qed.

(** [_allow_methods] on a header value, step by step. *)
Lemma allow_methods_run req url origin resp ao ac a st :
  _allow_methods req url origin resp ao ac (Some a) st
  = if methods_fire a then
      match Py.format (allow_methods_text url a +:+ methods_tail a)
              (methods_args a) with
      | Some desc =>
          let v := mkVuln (req_getURL req) (resp_getId resp) LOW
                     (methods_name a) desc in
          _filter_report allow_methods_counter
            "sensitive and uncommon methods" LOW [v] (logged v desc st)
      | None => (Raise FormatError, st)
      end
    else (Return [], st).
Proof.
  unfold _allow_methods, methods_fire, methods_name, methods_tail,
    methods_args, methods_both. cbv zeta.
  destruct (_ || _); [|reflexivity].
  rewrite bind_run, py_format_run, format_allow_methods_msg. cbv iota.
  destruct (negb (bool_decide (report_sensitive a = ∅))
            && negb (bool_decide (report_strange a = ∅)));
    [|destruct (negb (bool_decide (report_sensitive a = ∅)))];
    rewrite bind_run, bind_run, py_format_run;
    by destruct (Py.format _ _).
Qed.

Lemma format_methods_tail a :
  is_Some (Py.format (methods_tail a) (methods_args a)).
Proof.
  unfold methods_tail, methods_args.
  destruct (methods_both a); [by eexists|].
  destruct (negb _); by eexists.
Qed.

Lemma allow_methods_returns req url origin resp ao ac am st :
  Py.contains "%" url = false ->
  match am with Some a => Py.contains "%" a = false | None => True end ->
  exists l, fst (_allow_methods req url origin resp ao ac am st) = Return l.
Proof.
  intros Hu Ha. destruct am as [a|]; [|by eexists].
  rewrite allow_methods_run. destruct (methods_fire a); [|by eexists].
  rewrite (format_plain_app _ _ _ (no_percent_allow_methods_text url a Hu Ha)).
  destruct (format_methods_tail a) as [m ->]. cbn [fmap option_fmap option_map].
  cbv zeta. rewrite filter_report_logged. by eexists.
Qed.

Lemma allow_methods_raises_format req url origin resp ao ac am st e :
  fst (_allow_methods req url origin resp ao ac am st) = Raise e ->
  e = FormatError.
Proof.
  destruct am as [a|]; [|discriminate].
  rewrite allow_methods_run. destruct (methods_fire a); [|discriminate].
  destruct (Py.format _ _); [|by intros [= <-]].
  cbv zeta. rewrite filter_report_logged. discriminate.
Qed.

Lemma analysis_raises_format req url origin resp ao ac am st e :
  fst (_analyze_server_response req url origin resp ao ac am st) = Raise e ->
  e = FormatError.
Proof.
  rewrite analyze_server_response_run.
  unfold mbind, M_bind, mret, M_ret.
  destruct (first_three_return req url origin resp ao ac am
              _universal_allow st) as [l1 E1];
    [rewrite !elem_of_cons; auto|].
  destruct (_universal_allow _ _ _ _ _ _ _ st) as [[r1|e1] st1];
    [|discriminate].
  destruct (first_three_return req url origin resp ao ac am
              _origin_echo st1) as [l2 E2];
    [rewrite !elem_of_cons; auto|].
  destruct (_origin_echo _ _ _ _ _ _ _ st1) as [[r2|e2] st2];
    [|discriminate].
  destruct (first_three_return req url origin resp ao ac am
              _universal_origin_allow_creds st2) as [l3 E3];
    [rewrite !elem_of_cons; auto 6|].
  destruct (_universal_origin_allow_creds _ _ _ _ _ _ _ st2)
    as [[r3|e3] st3]; [|discriminate].
  pose proof (allow_methods_raises_format req url origin resp ao ac am st3)
    as R.
  destruct (_allow_methods _ _ _ _ _ _ _ st3) as [[r4|e4] st4];
    [discriminate|].
  cbn [fst] in *. intros [= <-]. by apply R.
Qed.

Lemma analysis_returns req url origin resp ao ac am st :
  Py.contains "%" url = false ->
  match am with
  | Some a => Py.contains "%" a = false
  | None => True
  end ->
  exists l,
    fst (_analyze_server_response req url origin resp ao ac am st) = Return l.
Proof.
  intros Hu Ha. rewrite analyze_server_response_run.
  unfold mbind, M_bind, mret, M_ret.
  destruct (first_three_return req url origin resp ao ac am
              _universal_allow st) as [l1 E1];
    [rewrite !elem_of_cons; auto|].
  destruct (_universal_allow _ _ _ _ _ _ _ st) as [[r1|e1] st1];
    [|discriminate].
  destruct (first_three_return req url origin resp ao ac am
              _origin_echo st1) as [l2 E2];
    [rewrite !elem_of_cons; auto|].
  destruct (_origin_echo _ _ _ _ _ _ _ st1) as [[r2|e2] st2];
    [|discriminate].
  destruct (first_three_return req url origin resp ao ac am
              _universal_origin_allow_creds st2) as [l3 E3];
    [rewrite !elem_of_cons; auto 6|].
  destruct (_universal_origin_allow_creds _ _ _ _ _ _ _ st2)
    as [[r3|e3] st3]; [|discriminate].
  destruct (allow_methods_returns req url origin resp ao ac am st3 Hu Ha)
    as [l4 E4].
  destruct (_allow_methods _ _ _ _ _ _ _ st3) as [[r4|e4] st4];
    [|discriminate].
  by eexists.
Qed.

(** X6: the only way the analysis of a response can raise is the second
    formatting of the message in [_allow_methods].  The three other methods
    return in every state and for every input; if the analysis raises, the
    exception is that of [%]; and it does not raise when neither the URL
    text nor the allow-methods value holds a percent sign. *)
Theorem analysis_raises_only_on_percent req url origin resp ao ac am st :
  (exists l1 l2 l3,
     fst (_universal_allow req url origin resp ao ac am st) = Return l1
     /\ fst (_origin_echo req url origin resp ao ac am st) = Return l2
     /\ fst (_universal_origin_allow_creds req url origin resp ao ac am st)
        = Return l3)
  /\ (forall e,
        fst (_analyze_server_response req url origin resp ao ac am st)
        = Raise e -> e = FormatError)
  /\ (Py.contains "%" url = false ->
      match am with
      | Some a => Py.contains "%" a = false
      | None => True
      end ->
      exists l,
        fst (_analyze_server_response req url origin resp ao ac am st)
        = Return l).
Proof.
  split; [|split].
  - destruct (first_three_return req url origin resp ao ac am
                _universal_allow st) as [l1 E1];
      [rewrite !elem_of_cons; auto|].
    destruct (first_three_return req url origin resp ao ac am
                _origin_echo st) as [l2 E2];
      [rewrite !elem_of_cons; auto|].
    destruct (first_three_return req url origin resp ao ac am
                _universal_origin_allow_creds st) as [l3 E3];
      [rewrite !elem_of_cons; auto 6|].
    by exists l1, l2, l3.
  - intros e. apply analysis_raises_format.
  - apply analysis_returns.
Qed.

Lemma analysis_raises_only_on_percent_witness :
  (Py.contains "%" "http://x.test/a" = false
   /\ Py.contains "%" "PUT, TRACE" = false)
  /\ exists l,
       fst (_analyze_server_response scenario_req "http://x.test/a"
              "http://evil.test" scenario_resp (Some "*") (Some "true")
              (Some "PUT, TRACE") __init__) = Return l.
Proof.
  split; [by split|].
  apply (analysis_raises_only_on_percent scenario_req "http://x.test/a"
           "http://evil.test" scenario_resp (Some "*") (Some "true")
           (Some "PUT, TRACE") __init__); reflexivity.
Defined.

(** * The method sets of [_allow_methods] *)

Lemma report_sensitive_spec a x :
  x ∈ report_sensitive a
  <-> x ∈ allow_methods_set a /\ x ∈ SENSITIVE_METHODS.
Proof.
  unfold report_sensitive, SENSITIVE_METHODS. cbn [foldl].
  rewrite !elem_of_cons, elem_of_nil.
  destruct (decide ("PUT" ∈ allow_methods_set a)) as [P|P],
    (decide ("DELETE" ∈ allow_methods_set a)) as [D|D];
    rewrite ?elem_of_union, ?elem_of_singleton, ?elem_of_empty;
    (split; [intros H; intuition (subst; auto)
            |intros [H [->|[->|[]]]]; tauto]).
Qed.

Lemma report_strange_spec a x :
  x ∈ report_strange a <-> x ∈ allow_methods_set a /\ x ∉ COMMON_METHODS.
Proof. unfold report_strange. rewrite elem_of_filter. tauto. Qed.

Lemma methods_fire_false a :
  methods_fire a = false
  <-> report_sensitive a = ∅ /\ report_strange a = ∅.
Proof.
  unfold methods_fire. rewrite orb_false_iff, !bool_decide_eq_false.
  rewrite <- !(leibniz_equiv_iff (A := gset string)), <- !size_empty_iff. lia.
Qed.

Lemma methods_silent a :
  report_sensitive a = ∅ /\ report_strange a = ∅
  <-> forall x, x ∈ allow_methods_set a -> x ∈ ["POST"; "GET"; "OPTIONS"].
Proof.
  split.
  - intros [Hs Hg] x Hx.
    assert (N1 : x ∉ report_sensitive a)
      by (rewrite Hs; apply not_elem_of_empty).
    assert (N2 : x ∉ report_strange a)
      by (rewrite Hg; apply not_elem_of_empty).
    rewrite report_sensitive_spec in N1. rewrite report_strange_spec in N2.
    destruct (decide (x ∈ COMMON_METHODS)) as [Hc|Hc]; [|tauto].
    unfold COMMON_METHODS, SENSITIVE_METHODS in *.
    rewrite !elem_of_cons, elem_of_nil in *. tauto.
  - intros H. split; apply set_eq; intros x; rewrite elem_of_empty;
      (split; [|done]).
    + rewrite report_sensitive_spec. intros [Hx Hs]. apply H in Hx.
      unfold SENSITIVE_METHODS in Hs.
      rewrite !elem_of_cons, elem_of_nil in *.
      destruct Hs as [->|[->|[]]]; destruct Hx as [?|[?|[?|[]]]];
        discriminate.
    + rewrite report_strange_spec. intros [Hx Hs]. apply H in Hx.
      exfalso. apply Hs. unfold COMMON_METHODS.
      rewrite !elem_of_cons, elem_of_nil in *. tauto.
Qed.

Lemma fired_kb_longer counter section sev v msg st :
  (length (kb_cors_origin st)
   < length (kb_cors_origin
               (snd (_filter_report counter section sev [v]
                       (logged v msg st)))))%nat.
Proof. rewrite kb_after_throttle, length_app. cbn [length]. lia. Qed.

Lemma allow_methods_untouched req url origin resp ao ac am st :
  _allow_methods req url origin resp ao ac am st = (Return [], st)
  <-> match am with
      | Some a => forall x, x ∈ allow_methods_set a
                            -> x ∈ ["POST"; "GET"; "OPTIONS"]
      | None => True
      end.
Proof.
  destruct am as [a|]; [|done].
  rewrite <- methods_silent, <- methods_fire_false, allow_methods_run.
  destruct (methods_fire a); [|done].
  split; [|discriminate]. intros H. exfalso.
  destruct (Py.format _ _) as [desc|]; [|discriminate].
  cbv zeta in H.
  apply (f_equal (fun r => length (kb_cors_origin (snd r)))) in H.
  cbn [snd] in H.
  match type of H with
  | context [_filter_report ?c ?s ?sev [?v] (logged ?v ?msg st)] =>
      pose proof (fired_kb_longer c s sev v msg st)
  end.
  lia.
Qed.

(** X7: what [_allow_methods] reports.  A method is reported as sensitive
    when it is listed and is PUT or DELETE, as uncommon when it is listed
    and is none of the five common methods, so never as both; and the
    method leaves the plugin untouched and returns nothing exactly when
    every listed method, trimmed and upper-cased, is POST, GET or
    OPTIONS. *)
Theorem allow_methods_silent_iff req url origin resp ao ac a st :
  (forall x, x ∈ report_sensitive a
             <-> x ∈ allow_methods_set a /\ x ∈ SENSITIVE_METHODS)
  /\ (forall x, x ∈ report_strange a
                <-> x ∈ allow_methods_set a /\ x ∉ COMMON_METHODS)
  /\ report_sensitive a ## report_strange a
  /\ (_allow_methods req url origin resp ao ac (Some a) st = (Return [], st)
      <-> forall x, x ∈ allow_methods_set a
                    -> x ∈ ["POST"; "GET"; "OPTIONS"]).
Proof.
  split; [apply report_sensitive_spec|].
  split; [apply report_strange_spec|].
  split.
  { intros x. rewrite report_sensitive_spec, report_strange_spec.
    intros [_ Hs] [_ Hc]. apply Hc. unfold SENSITIVE_METHODS in Hs.
    unfold COMMON_METHODS. rewrite !elem_of_cons, elem_of_nil in *. tauto. }
  apply (allow_methods_untouched req url origin resp ao ac (Some a) st).
Qed.

(** ** Letter case in the header value *)

Lemma char_upper_upper c : Py.char_upper (Py.char_upper c) = Py.char_upper c.
Proof. by destruct c as [[] [] [] [] [] [] [] []]. Qed.

Lemma char_upper_lower c : Py.char_upper (Py.char_lower c) = Py.char_upper c.
Proof. by destruct c as [[] [] [] [] [] [] [] []]. Qed.

Lemma is_space_char_upper c :
  Ascii.is_space (Py.char_upper c) = Ascii.is_space c.
Proof. by destruct c as [[] [] [] [] [] [] [] []]. Qed.

Lemma is_space_char_lower c :
  Ascii.is_space (Py.char_lower c) = Ascii.is_space c.
Proof. by destruct c as [[] [] [] [] [] [] [] []]. Qed.

Lemma comma_char_upper c :
  Ascii.eqb (Py.char_upper c) "," = Ascii.eqb c ",".
Proof. by destruct c as [[] [] [] [] [] [] [] []]. Qed.

Lemma comma_char_lower c :
  Ascii.eqb (Py.char_lower c) "," = Ascii.eqb c ",".
Proof. by destruct c as [[] [] [] [] [] [] [] []]. Qed.

Section LetterCase.

(** [f] maps a string character by character with [g], which keeps
    whitespace and commas apart from the rest and is undone by
    upper-casing. *)
Variable g : ascii -> ascii.
Variable f : string -> string.
Hypothesis f_nil : f EmptyString = EmptyString.
Hypothesis f_cons : forall c r, f (String c r) = String (g c) (f r).
Hypothesis g_space : forall c, Ascii.is_space (g c) = Ascii.is_space c.
Hypothesis g_comma : forall c, Ascii.eqb (g c) "," = Ascii.eqb c ",".
Hypothesis g_upper : forall c, Py.char_upper (g c) = Py.char_upper c.

Lemma split_mapped s : Py.split "," (f s) = f <$> Py.split "," s.
Proof.
  induction s as [|c r IH]; [by rewrite f_nil; cbn; rewrite f_nil|].
  rewrite f_cons. cbn [Py.split]. rewrite g_comma, IH.
  destruct (Ascii.eqb c ","); [by cbn; rewrite f_nil|].
  destruct (Py.split "," r) as [|h t]; cbn; by rewrite f_cons, ?f_nil.
Qed.

Lemma lstrip_mapped s : Py.lstrip (f s) = f (Py.lstrip s).
Proof.
  induction s as [|c r IH]; [by rewrite f_nil; cbn; rewrite f_nil|].
  rewrite f_cons. cbn [Py.lstrip]. rewrite g_space.
  destruct (Ascii.is_space c); [done|by rewrite f_cons].
Qed.

Lemma rstrip_mapped s : Py.rstrip (f s) = f (Py.rstrip s).
Proof.
  induction s as [|c r IH]; [by rewrite f_nil; cbn; rewrite f_nil|].
  rewrite f_cons. cbn [Py.rstrip]. rewrite g_space, IH.
  destruct (Py.rstrip r) as [|c' r'].
  - rewrite f_nil. destruct (Ascii.is_space c); by rewrite ?f_cons, f_nil.
  - by rewrite !f_cons.
Qed.

Lemma upper_mapped s : Py.upper (f s) = Py.upper s.
Proof.
  induction s as [|c r IH]; [by rewrite f_nil|].
  rewrite f_cons. cbn [Py.upper]. by rewrite g_upper, IH.
Qed.

Lemma allow_methods_set_mapped a :
  allow_methods_set (f a) = allow_methods_set a.
Proof.
  unfold allow_methods_set. cbv zeta. f_equal.
  rewrite split_mapped, <- !list_fmap_compose.
  apply list_fmap_ext. intros _ t _. cbn [compose]. unfold Py.strip.
  by rewrite lstrip_mapped, rstrip_mapped, upper_mapped.
Qed.

End LetterCase.

Lemma allow_methods_set_upper a :
  allow_methods_set (Py.upper a) = allow_methods_set a.
Proof.
  apply (allow_methods_set_mapped Py.char_upper Py.upper); try done.
  - apply is_space_char_upper.
  - apply comma_char_upper.
  - apply char_upper_upper.
Qed.

Lemma allow_methods_set_lower a :
  allow_methods_set (Py.lower a) = allow_methods_set a.
Proof.
  apply (allow_methods_set_mapped Py.char_lower Py.lower); try done.
  - apply is_space_char_lower.
  - apply comma_char_lower.
  - apply char_upper_lower.
Qed.

Lemma methods_choices_same a b :
  allow_methods_set a = allow_methods_set b ->
  report_sensitive a = report_sensitive b
  /\ report_strange a = report_strange b
  /\ methods_fire a = methods_fire b
  /\ methods_name a = methods_name b
  /\ methods_tail a = methods_tail b
  /\ methods_args a = methods_args b.
Proof.
  intros H.
  assert (Hs : report_sensitive a = report_sensitive b)
    by (unfold report_sensitive; by rewrite H).
  assert (Hg : report_strange a = report_strange b)
    by (unfold report_strange; by rewrite H).
  unfold methods_fire, methods_name, methods_tail, methods_args, methods_both.
  by rewrite Hs, Hg.
Qed.

(** X8: [_allow_methods] decides without regard to letter case.  The
    header value, its upper-cased and its lower-cased form give the same
    set of methods, hence the same sensitive and uncommon methods, the
    same decision to report and the same name of the finding. *)
Theorem allow_methods_case_insensitive a b :
  b = Py.upper a \/ b = Py.lower a ->
  allow_methods_set b = allow_methods_set a
  /\ report_sensitive b = report_sensitive a
  /\ report_strange b = report_strange a
  /\ methods_fire b = methods_fire a
  /\ methods_name b = methods_name a.
Proof.
  intros H.
  assert (E : allow_methods_set b = allow_methods_set a).
  { destruct H as [->| ->];
      [apply allow_methods_set_upper|apply allow_methods_set_lower]. }
  split; [exact E|].
  destruct (methods_choices_same b a E) as (? & ? & ? & ? & _). done.
Qed.

Lemma allow_methods_case_insensitive_witness :
  allow_methods_set (Py.lower "Put, Trace") = allow_methods_set "Put, Trace"
  /\ methods_name (Py.lower "Put, Trace") = methods_name "Put, Trace".
Proof.
  destruct (allow_methods_case_insensitive "Put, Trace"
              (Py.lower "Put, Trace")) as (A & _ & _ & _ & B); [by right|].
  by split.
Defined.

(** ** A blank header value *)

Lemma all_space_split a : all_space a = true -> Py.split "," a = [a].
Proof.
  induction a as [|c r IH]; [done|]. cbn [all_space Py.split].
  intros [Hc Hr]%andb_true_iff. rewrite (IH Hr).
  by destruct c as [[] [] [] [] [] [] [] []].
Qed.

Lemma all_space_no_percent a :
  all_space a = true -> Py.contains "%" a = false.
Proof.
  induction a as [|c r IH]; [done|]. cbn [all_space].
  intros [Hc Hr]%andb_true_iff.
  change (String.prefix "%" (String c r) || Py.contains "%" r = false).
  rewrite (IH Hr), orb_false_r.
  by destruct c as [[] [] [] [] [] [] [] []].
Qed.

Lemma all_space_sets a :
  all_space a = true ->
  report_sensitive a = ∅ /\ report_strange a = {[""]}.
Proof.
  intros H.
  assert (E : allow_methods_set a = {[""]}).
  { unfold allow_methods_set. cbv zeta. rewrite (all_space_split a H).
    cbn [fmap list_fmap]. apply strip_empty in H. rewrite H.
    vm_compute. reflexivity. }
  unfold report_sensitive, report_strange. rewrite E.
  split; vm_compute; reflexivity.
Qed.

(** X9: a header value that is empty or all whitespace is reported.  Its
    one method is the empty string, which is not a common method, so for
    a URL without a percent sign [_allow_methods] stores the finding
    "Uncommon CORS methods enabled", whose message ends with an empty list
    of methods, and hands it to the throttle. *)
Theorem blank_allow_methods_reported req url origin resp ao ac a st :
  all_space a = true ->
  Py.contains "%" url = false ->
  let v := mkVuln (req_getURL req) (resp_getId resp) LOW
             "Uncommon CORS methods enabled"
             (allow_methods_text url a +:+
              " since it allows the following uncommon HTTP methods: .") in
  report_sensitive a = ∅
  /\ report_strange a = {[""]}
  /\ _allow_methods req url origin resp ao ac (Some a) st
     = _filter_report allow_methods_counter "sensitive and uncommon methods"
         LOW [v] (logged v (getDesc v) st).
Proof.
  intros H Hu. destruct (all_space_sets a H) as [Hs Hg].
  cbv zeta. split; [exact Hs|]. split; [exact Hg|].
  rewrite allow_methods_run.
  rewrite (format_plain_app _ _ _
             (no_percent_allow_methods_text url a Hu (all_space_no_percent a H))).
  unfold methods_fire, methods_name, methods_tail, methods_args, methods_both.
  rewrite Hs, Hg. reflexivity.
Qed.

Lemma blank_allow_methods_reported_witness :
  exists v,
    getName v = "Uncommon CORS methods enabled"
    /\ fst (_allow_methods scenario_req "http://x.test/a" "http://evil.test"
              scenario_resp None None (Some "  ") __init__) = Return [v].
Proof.
  eexists. split; [|].
  2:{ pose proof (blank_allow_methods_reported scenario_req "http://x.test/a"
                    "http://evil.test" scenario_resp None None "  " __init__
                    eq_refl eq_refl) as (_ & _ & E).
      rewrite E. reflexivity. }
  reflexivity.
Defined.

(** * Letter case in [_origin_echo] *)

Lemma prefix_app sub s :
  String.prefix sub s = true <-> exists post, s = sub +:+ post.
Proof.
  revert s. induction sub as [|c r IH]; intros s.
  - split; [intros _; by exists s|by destruct s].
  - destruct s as [|c' r']; cbn [String.prefix].
    + split; [done|]. by intros [post H].
    + destruct (ascii_dec c c') as [->|Hne].
      * rewrite IH. split; intros [post H]; exists post.
        -- by rewrite H.
        -- change (String c' r +:+ post) with (String c' (r +:+ post)) in H.
           congruence.
      * split; [done|]. intros [post H].
        change (String c r +:+ post) with (String c (r +:+ post)) in H.
        congruence.
Qed.

(** [sub in s] is: [s] is some text, then [sub], then some text. *)
Lemma contains_app sub s :
  Py.contains sub s = true <-> exists pre post, s = pre +:+ sub +:+ post.
Proof.
  induction s as [|c r IH].
  - cbn [Py.contains]. rewrite orb_false_r, prefix_app. split.
    + intros [post H]. by exists "", post.
    + intros (pre & post & H). exists post. destruct pre; [done|discriminate].
  - cbn [Py.contains]. rewrite orb_true_iff, IH, prefix_app. split.
    + intros [[post H]|(pre & post & H)].
      * by exists "", post.
      * exists (String c pre), post. by rewrite H.
    + intros (pre & post & H). destruct pre as [|c' pre'].
      * left. by exists post.
      * right. exists pre', post.
        change (String c' pre' +:+ sub +:+ post)
          with (String c' (pre' +:+ sub +:+ post)) in H.
        congruence.
Qed.

Lemma has_upper_app a b : has_upper (a +:+ b) = has_upper a || has_upper b.
Proof.
  induction a as [|c r IH]; [done|].
  change (String c r +:+ b) with (String c (r +:+ b)).
  cbn [has_upper]. by rewrite IH, orb_assoc.
Qed.

Lemma has_upper_lower s : has_upper (Py.lower s) = false.
Proof.
  induction s as [|c r IH]; [done|]. cbn [Py.lower has_upper].
  rewrite IH, orb_false_r. by destruct c as [[] [] [] [] [] [] [] []].
Qed.

Lemma lower_app a b : Py.lower (a +:+ b) = Py.lower a +:+ Py.lower b.
Proof.
  induction a as [|c r IH]; [done|].
  change (String c r +:+ b) with (String c (r +:+ b)).
  cbn [Py.lower]. by rewrite IH.
Qed.

Lemma contains_lower_no_upper origin a :
  Py.contains origin (Py.lower a) = true -> has_upper origin = false.
Proof.
  intros (pre & post & H)%contains_app.
  pose proof (has_upper_lower a) as U. rewrite H, !has_upper_app in U.
  apply orb_false_iff in U as [_ U]. by apply orb_false_iff in U as [U _].
Qed.

(** X10: the allow-origin value is lower-cased before the comparison and
    the probe origin is not.  With a configured origin that has an ASCII
    capital letter [_origin_echo] never fires: whatever the response
    holds, it returns nothing and leaves the plugin untouched. *)
Theorem origin_echo_capital_never_fires req url origin resp ao ac am st :
  has_upper origin = true ->
  _origin_echo req url origin resp ao ac am st = (Return [], st).
Proof.
  intros H. destruct (origin_echo_run req url origin resp ao ac am) as [d E].
  rewrite E. destruct ao as [a|]; [|reflexivity].
  destruct (Py.contains origin (Py.lower a)) eqn:C; [|reflexivity].
  apply contains_lower_no_upper in C. congruence.
Qed.

Lemma origin_echo_capital_never_fires_witness :
  has_upper "http://Evil.test" = true
  /\ _origin_echo scenario_req "http://x.test/a" "http://Evil.test"
       scenario_resp (Some "http://Evil.test") (Some "true") None __init__
     = (Return [], __init__).
Proof.
  split; [reflexivity|].
  by apply (origin_echo_capital_never_fires scenario_req "http://x.test/a"
              "http://Evil.test" scenario_resp (Some "http://Evil.test")
              (Some "true") None __init__).
Defined.

(** X11: on the side of the response the comparison is a substring test
    that ignores letter case.  When the allow-origin value holds, anywhere
    and in any letter case, the probe origin (which has no capital letter
    of its own), [_origin_echo] stores a finding and hands it to the
    throttle; for the empty origin that is every response with the
    header. *)
Theorem origin_echo_substring_any_case
    req url origin resp pre x post ac am st :
  Py.lower x = origin ->
  exists v,
    getURL v = req_getURL req
    /\ getSeverity v = (if credentials_allowed ac then HIGH else LOW)
    /\ _origin_echo req url origin resp (Some (pre +:+ x +:+ post)) ac am st
       = _filter_report origin_echo_counter "origin echoed in allow-origin"
           HIGH [v] (logged v (getDesc v) st).
Proof.
  intros H.
  destruct (origin_echo_run req url origin resp
              (Some (pre +:+ x +:+ post)) ac am) as [d E].
  exists (mkVuln (req_getURL req) (resp_getId resp)
            (if credentials_allowed ac then HIGH else LOW)
            (if credentials_allowed ac
             then origin_echo_creds_name else origin_echo_name) d).
  split; [reflexivity|]. split; [reflexivity|].
  rewrite E, !lower_app, H.
  assert (C : Py.contains origin
                (Py.lower pre +:+ origin +:+ Py.lower post) = true)
    by (apply contains_app; by eexists _, _).
  by rewrite C.
Qed.

Lemma origin_echo_substring_any_case_witness :
  exists v,
    getSeverity v = LOW
    /\ fst (_origin_echo scenario_req "http://x.test/a" "evil.test"
              scenario_resp (Some "https://EVIL.Test.example.org") None None
              __init__) = Return [v].
Proof.
  destruct (origin_echo_substring_any_case scenario_req "http://x.test/a"
              "evil.test" scenario_resp "https://" "EVIL.Test" ".example.org"
              None None __init__ eq_refl) as (v & _ & Hs & E).
  exists v. split; [exact Hs|].
  change ("https://" +:+ "EVIL.Test" +:+ ".example.org")
    with "https://EVIL.Test.example.org" in E.
  rewrite E. apply filter_report_logged.
Defined.

(** * The entry points *)

Lemma grows_kb_length st st' :
  grows st st' ->
  (length (kb_cors_origin st) ≤ length (kb_cors_origin st'))%nat.
Proof. intros (_ & _ & _ & [k ->] & _). rewrite length_app. lia. Qed.

(** A method that returned and stored nothing stays silent in every
    state. *)
Lemma method_untouched (analysis_method : AnalysisMethod)
    req url origin resp ao ac am st l :
  analysis_method ∈ analysis_methods ->
  fst (analysis_method req url origin resp ao ac am st) = Return l ->
  length (kb_cors_origin (snd (analysis_method req url origin resp ao ac am st)))
  = length (kb_cors_origin st) ->
  forall st', analysis_method req url origin resp ao ac am st' = (Return [], st').
Proof.
  intros Hin Hr Hl.
  destruct (analysis_method_shape req url origin resp ao ac am
              analysis_method Hin)
    as [[e H]|[H|(c & s & sev & v & msg & _ & H)]].
  - by rewrite H in Hr.
  - exact H.
  - rewrite H in Hl. pose proof (fired_kb_longer c s sev v msg st). lia.
Qed.

Lemma universal_allow_untouched req url origin resp ao ac am st :
  _universal_allow req url origin resp ao ac am st = (Return [], st)
  <-> ao <> Some "*".
Proof.
  destruct (universal_allow_run req url origin resp ao ac am) as [d E].
  rewrite E. case_bool_decide as Hw; [|done].
  split; [|done]. intros K. exfalso.
  apply (f_equal (fun r => length (kb_cors_origin (snd r)))) in K.
  cbn [snd] in K.
  pose proof (fired_kb_longer universal_allow_counter
                "universal allow-origin" MEDIUM
                (mkVuln (req_getURL req) (resp_getId resp) LOW
                   universal_allow_name d) universal_allow_msg st).
  cbv zeta in K. lia.
Qed.

Lemma origin_echo_untouched req url origin resp ao ac am st :
  _origin_echo req url origin resp ao ac am st = (Return [], st)
  <-> match ao with
      | Some a => Py.contains origin (Py.lower a) = false
      | None => True
      end.
Proof.
  destruct (origin_echo_run req url origin resp ao ac am) as [d E].
  rewrite E. destruct ao as [a|]; [|done].
  destruct (Py.contains origin (Py.lower a)); [|done].
  split; [|done]. intros H. exfalso.
  apply (f_equal (fun r => length (kb_cors_origin (snd r)))) in H.
  cbn [snd] in H. cbv zeta in H.
  match type of H with
  | context [_filter_report ?c ?s ?sev [?v] (logged ?v ?msg st)] =>
      pose proof (fired_kb_longer c s sev v msg st)
  end.
  lia.
Qed.

Lemma universal_origin_allow_creds_untouched req url origin resp ao ac am st :
  credentials_allowed ac && bool_decide (ao = Some "*") = false ->
  _universal_origin_allow_creds req url origin resp ao ac am st
  = (Return [], st).
Proof.
  intros H.
  destruct (universal_origin_allow_creds_run req url origin resp ao ac am)
    as [d E].
  by rewrite E, H.
Qed.

(** The analysis of a response returns and leaves the plugin as it was
    exactly when no method has anything to report. *)
Lemma analysis_untouched req url origin resp ao ac am st :
  (exists l, _analyze_server_response req url origin resp ao ac am st
             = (Return l, st))
  <-> ao <> Some "*"
      /\ match ao with
         | Some a => Py.contains origin (Py.lower a) = false
         | None => True
         end
      /\ match am with
         | Some a => forall x, x ∈ allow_methods_set a
                               -> x ∈ ["POST"; "GET"; "OPTIONS"]
         | None => True
         end.
Proof.
  destruct in_analysis_methods as (I1 & I2 & I3 & I4).
  rewrite analyze_server_response_run. split.
  - intros [l H]. unfold mbind, M_bind, mret, M_ret in H.
    pose proof (method_grows req url origin resp ao ac am _ st I1) as G1.
    pose proof (fun l => method_untouched _universal_allow req url origin resp ao ac am
                          st l I1) as U1.
    destruct (_universal_allow _ _ _ _ _ _ _ st) as [[r1|e1] st1];
      [|discriminate].
    pose proof (method_grows req url origin resp ao ac am _ st1 I2) as G2.
    pose proof (fun l => method_untouched _origin_echo req url origin resp ao ac am
                          st1 l I2) as U2.
    destruct (_origin_echo _ _ _ _ _ _ _ st1) as [[r2|e2] st2];
      [|discriminate].
    pose proof (method_grows req url origin resp ao ac am _ st2 I3) as G3.
    destruct (_universal_origin_allow_creds _ _ _ _ _ _ _ st2)
      as [[r3|e3] st3]; [|discriminate].
    pose proof (method_grows req url origin resp ao ac am _ st3 I4) as G4.
    pose proof (fun l => method_untouched _allow_methods req url origin resp ao ac am
                          st3 l I4) as U4.
    destruct (_allow_methods _ _ _ _ _ _ _ st3) as [[r4|e4] st4];
      [|discriminate].
    cbn [fst snd] in *. injection H as _ ->.
    apply grows_kb_length in G1, G2, G3, G4.
    split; [|split].
    + apply (universal_allow_untouched req url origin resp ao ac am st).
      apply (U1 r1); [done|lia].
    + apply (origin_echo_untouched req url origin resp ao ac am st).
      apply (U2 r2); [done|lia].
    + apply (allow_methods_untouched req url origin resp ao ac am st).
      apply (U4 r4); [done|lia].
  - intros (H1 & H2 & H4). exists []. unfold mbind, M_bind, mret, M_ret.
    rewrite (proj2 (universal_allow_untouched req url origin resp ao ac am st) H1).
    rewrite (proj2 (origin_echo_untouched req url origin resp ao ac am st) H2).
    rewrite (universal_origin_allow_creds_untouched req url origin resp ao ac
               am st)
      by (rewrite (bool_decide_eq_false_2 _ H1); apply andb_false_r).
    by rewrite (proj2 (allow_methods_untouched req url origin resp ao ac am st) H4).
Qed.

Section Scan.

Variable HTTPResponse : Type.
Variable response_getId : HTTPResponse -> Z.
Variable provides_cors_features : Request -> bool.
Variable build_cors_request : string -> string -> Request.
Variable send_mutant : Request -> HTTPResponse.
Variable retrieve_cors_header : HTTPResponse -> string -> option string.
Variable probe_without_origin : string -> M unit.

Local Abbreviation plugin_analyze :=
  (analyze_cors_security HTTPResponse response_getId build_cors_request
     send_mutant retrieve_cors_header probe_without_origin).
Local Abbreviation plugin_audit :=
  (audit HTTPResponse response_getId provides_cors_features
     build_cors_request send_mutant retrieve_cors_header
     probe_without_origin).
Local Abbreviation plugin_scan :=
  (scan HTTPResponse response_getId provides_cors_features
     build_cors_request send_mutant retrieve_cors_header
     probe_without_origin).

(** The header [h] of the answer to the probe of [url] with [origin]. *)
Local Abbreviation probe_header url origin h :=
  (retrieve_cors_header (send_mutant (build_cors_request url origin)) h).

(** The response analysis [analyze_cors_security] runs for [url]. *)
Local Abbreviation probe_analysis url origin :=
  (_analyze_server_response (build_cors_request url origin) url origin
     (mkResponse
        (response_getId (send_mutant (build_cors_request url origin))))
     (probe_header url origin ACCESS_CONTROL_ALLOW_ORIGIN)
     (probe_header url origin ACCESS_CONTROL_ALLOW_CREDENTIALS)
     (probe_header url origin ACCESS_CONTROL_ALLOW_METHODS)).

Lemma analyze_cors_security_run url origin st :
  origin_header_value st = Some origin ->
  plugin_analyze url st
  = match probe_analysis url origin st with
    | (Return _, st') => (Return tt, st')
    | (Raise e, st') => (Raise e, st')
    end.
Proof.
  intros H. unfold analyze_cors_security, get_origin_header_value.
  rewrite bind_run, H. cbv zeta. cbn [mapM].
  rewrite !bind_run.
  by destruct (_analyze_server_response _ _ _ _ _ _ _ st) as [[l|e] st'].
Qed.

Lemma audit_run freq origin st :
  origin_header_value st = Some origin ->
  plugin_audit freq st
  = if provides_cors_features freq then
      match probe_analysis (req_getURL freq) origin st with
      | (Return _, st') => (Return tt, st')
      | (Raise e, st') => (Raise e, st')
      end
    else (Return tt, st).
Proof.
  intros H. unfold audit.
  destruct (provides_cors_features freq); [|reflexivity].
  by apply analyze_cors_security_run.
Qed.

(** X12: an audit leaves the plugin exactly as it was, and returns, in
    two cases only: the request does not provide CORS features, or the
    answer to the probe gives no method anything to report, which is
    that its allow-origin value is not the wildcard and does not contain
    the configured origin, and that every method it allows is POST, GET
    or OPTIONS.  The credentials header alone never matters. *)
Theorem audit_untouched_iff freq origin st :
  origin_header_value st = Some origin ->
  let url := req_getURL freq in
  let allow_origin := probe_header url origin ACCESS_CONTROL_ALLOW_ORIGIN in
  let allow_methods := probe_header url origin ACCESS_CONTROL_ALLOW_METHODS in
  plugin_audit freq st = (Return tt, st)
  <-> provides_cors_features freq = false
      \/ (allow_origin <> Some "*"
          /\ match allow_origin with
             | Some a => Py.contains origin (Py.lower a) = false
             | None => True
             end
          /\ match allow_methods with
             | Some a => forall x, x ∈ allow_methods_set a
                                   -> x ∈ ["POST"; "GET"; "OPTIONS"]
             | None => True
             end).
Proof.
  intros H. cbv zeta. rewrite (audit_run freq origin st H).
  rewrite <- (analysis_untouched
                (build_cors_request (req_getURL freq) origin)
                (req_getURL freq) origin
                (mkResponse
                   (response_getId
                      (send_mutant
                         (build_cors_request (req_getURL freq) origin))))
                _ (probe_header (req_getURL freq) origin
                     ACCESS_CONTROL_ALLOW_CREDENTIALS) _ st).
  destruct (provides_cors_features freq).
  - split.
    + intros E. right.
      destruct (_analyze_server_response _ _ _ _ _ _ _ st) as [[l|e] st'];
        [|discriminate].
      injection E as ->. by exists l.
    + intros [?|[l ->]]; [discriminate|reflexivity].
  - split; [by left|reflexivity].
Qed.




Lemma scan_nil st : plugin_scan [] st = (Return tt, st).
Proof. reflexivity. Qed.

Lemma scan_cons freq freqs st :
  plugin_scan (freq :: freqs) st
  = match plugin_audit freq st with
    | (Return _, st') => plugin_scan freqs st'
    | (Raise e, st') => (Raise e, st')
    end.
Proof.
  unfold scan. cbn [mapM]. rewrite !bind_run.
  destruct (plugin_audit freq st) as [[[]|e] st']; [|reflexivity].
  rewrite !bind_run.
  by destruct (@mapM M _ _ _ _ _ freqs st') as [[l|e] st''].
Qed.


(** ** A scan of wildcard answers *)

Lemma throttle_step counter section sev v msg st :
  let st' := snd (_filter_report counter section sev [v] (logged v msg st)) in
  origin_header_value st' = origin_header_value st
  /\ if bool_decide (counter_value st counter ≤ MAX_REPEATED_REPORTS) then
       counter_value st' counter = counter_value st counter + 1
       /\ _reported_global st' = _reported_global st
       /\ length (kb_cors_origin st') = S (length (kb_cors_origin st))
     else if bool_decide (section ∈ _reported_global st) then
       counter_value st' counter = counter_value st counter
       /\ _reported_global st' = _reported_global st
       /\ length (kb_cors_origin st') = S (length (kb_cors_origin st))
     else
       counter_value st' counter = counter_value st counter
       /\ section ∈ _reported_global st'
       /\ length (kb_cors_origin st') = S (S (length (kb_cors_origin st))).
Proof.
  cbv zeta. rewrite kb_after_throttle, length_app. cbn [length].
  rewrite filter_report_run. autorewrite with fields.
  unfold stored_after, throttled.
  repeat case_bool_decide; cbv zeta; cbn [snd length];
    autorewrite with fields; repeat split; try done; try lia.
  apply elem_of_union_l. by apply elem_of_singleton.
Qed.

Lemma audit_wildcard freq origin st :
  origin_header_value st = Some origin ->
  origin <> "" -> origin <> "*" ->
  provides_cors_features freq = true ->
  probe_header (req_getURL freq) origin ACCESS_CONTROL_ALLOW_ORIGIN
  = Some "*" ->
  probe_header (req_getURL freq) origin ACCESS_CONTROL_ALLOW_CREDENTIALS
  = None ->
  probe_header (req_getURL freq) origin ACCESS_CONTROL_ALLOW_METHODS
  = None ->
  exists v,
    plugin_audit freq st
    = (Return tt,
       snd (_filter_report universal_allow_counter "universal allow-origin"
              MEDIUM [v] (logged v universal_allow_msg st))).
Proof.
  intros H N1 N2 Hp Ho Hc Hm.
  rewrite (audit_run freq origin st H), Hp, Ho, Hc, Hm.
  rewrite analyze_server_response_run.
  destruct (universal_allow_run
              (build_cors_request (req_getURL freq) origin)
              (req_getURL freq) origin
              (mkResponse
                 (response_getId
                    (send_mutant
                       (build_cors_request (req_getURL freq) origin))))
              (Some "*") None None) as [d E].
  set (v := mkVuln
              (req_getURL (build_cors_request (req_getURL freq) origin))
              (resp_getId
                 (mkResponse
                    (response_getId
                       (send_mutant
                          (build_cors_request (req_getURL freq) origin)))))
              LOW universal_allow_name d) in E.
  exists v. rewrite bind_run, E. cbv zeta.
  rewrite bool_decide_eq_true_2 by done.
  pose proof (filter_report_logged universal_allow_counter
                "universal allow-origin" MEDIUM v universal_allow_msg st)
    as R.
  destruct (_filter_report universal_allow_counter "universal allow-origin"
              MEDIUM [v] (logged v universal_allow_msg st))
    as [[r|e] st1]; [|discriminate].
  cbn [snd].
  rewrite bind_run.
  rewrite (proj2 (origin_echo_untouched _ _ origin _ (Some "*") None None st1)
             (contains_star origin N1 N2)).
  rewrite bind_run.
  rewrite (universal_origin_allow_creds_untouched _ _ origin _ (Some "*")
             None None st1 eq_refl).
  reflexivity.
Qed.

Lemma scan_wildcard_count freqs origin st :
  origin_header_value st = Some origin ->
  origin <> "" -> origin <> "*" ->
  Forall (fun freq =>
            provides_cors_features freq = true
            /\ probe_header (req_getURL freq) origin
                 ACCESS_CONTROL_ALLOW_ORIGIN = Some "*"
            /\ probe_header (req_getURL freq) origin
                 ACCESS_CONTROL_ALLOW_CREDENTIALS = None
            /\ probe_header (req_getURL freq) origin
                 ACCESS_CONTROL_ALLOW_METHODS = None) freqs ->
  fst (plugin_scan freqs st) = Return tt
  /\ length (kb_cors_origin (snd (plugin_scan freqs st)))
     = (length (kb_cors_origin st) + length freqs
        + (if bool_decide ("universal allow-origin" ∈ _reported_global st)
           then 0
           else if bool_decide
                     (Z.max 1 (MAX_REPEATED_REPORTS + 2
                               - counter_value st universal_allow_counter)
                      ≤ Z.of_nat (length freqs))%Z
                then 1 else 0))%nat.
Proof.
  intros H N1 N2 HF. revert st H.
  induction HF as [|freq freqs (Hp & Ho & Hc & Hm) HF IH]; intros st H.
  - split; [reflexivity|]. cbn [length].
    rewrite scan_nil. cbn [snd length].
    case_bool_decide; [lia|]. rewrite bool_decide_eq_false_2; [lia|].
    cbn [length]. lia.
  - rewrite scan_cons.
    destruct (audit_wildcard freq origin st H N1 N2 Hp Ho Hc Hm) as [v ->].
    destruct (throttle_step universal_allow_counter "universal allow-origin"
                MEDIUM v universal_allow_msg st) as [Eo T].
    set (st1 := snd (_filter_report _ _ _ _ _)) in *.
    destruct (IH st1) as [R L]; [by rewrite Eo|].
    split; [exact R|]. rewrite L. cbn [length].
    unfold MAX_REPEATED_REPORTS in *.
    clearbody st1.
    repeat case_bool_decide; destruct T as (T1 & T2 & T3);
      rewrite ?T2 in *; first [lia|tauto].
Qed.


(** X14: the throttle does not limit what is stored.  [analyze_cors_security]
    drops what the response analysis returns, and each method has put its
    finding in the knowledge base before the throttle is asked.  So a scan
    of [n] URLs that all answer with the wildcard origin alone, started
    with a fresh wildcard counter, returns and leaves [n] new findings in
    the knowledge base, and one more, the summary, once [n] reaches 5. *)
Theorem scan_wildcard_stores_all freqs origin st :
  origin_header_value st = Some origin ->
  origin <> "" -> origin <> "*" ->
  counter_value st universal_allow_counter = 0 ->
  "universal allow-origin" ∉ _reported_global st ->
  Forall (fun freq =>
            provides_cors_features freq = true
            /\ probe_header (req_getURL freq) origin
                 ACCESS_CONTROL_ALLOW_ORIGIN = Some "*"
            /\ probe_header (req_getURL freq) origin
                 ACCESS_CONTROL_ALLOW_CREDENTIALS = None
            /\ probe_header (req_getURL freq) origin
                 ACCESS_CONTROL_ALLOW_METHODS = None) freqs ->
  fst (plugin_scan freqs st) = Return tt
  /\ length (kb_cors_origin (snd (plugin_scan freqs st)))
     = (length (kb_cors_origin st) + length freqs
        + (if bool_decide (5 ≤ length freqs)%nat then 1 else 0))%nat.
Proof.
  intros H N1 N2 Hc Hr HF.
  destruct (scan_wildcard_count freqs origin st H N1 N2 HF) as [R L].
  split; [exact R|]. rewrite L, Hc.
  rewrite (bool_decide_eq_false_2 _ Hr). unfold MAX_REPEATED_REPORTS.
  repeat case_bool_decide; lia.
Qed.

End Scan.

Lemma audit_untouched_iff_witness :
  scenario_audit
    (fun _ => [("Access-Control-Allow-Methods", "GET, post");
               ("Access-Control-Allow-Credentials", "true")])
    scenario_req __init__
  = (Return tt, __init__).
Proof.
  unfold scenario_audit.
  apply (audit_untouched_iff (list (string * string)) (fun _ => 1)
           (fun _ => true) (fun url _ => mkRequest url)
           (fun _ => [("Access-Control-Allow-Methods", "GET, post");
                      ("Access-Control-Allow-Credentials", "true")])
           scenario_header (fun _ => mret tt) scenario_req
           "http://w3af.sourceforge.net/" __init__ eq_refl).
  right. split; [done|]. split; [done|].
  change (forall x, x ∈ allow_methods_set "GET, post"
                    -> x ∈ ["POST"; "GET"; "OPTIONS"]).
  intros x.
  replace (allow_methods_set "GET, post")
    with ({["GET"]} ∪ {["POST"]} : gset string)
    by (vm_compute; reflexivity).
  rewrite elem_of_union, !elem_of_singleton, !elem_of_cons. tauto.
Defined.


Lemma scan_wildcard_stores_all_witness :
  length (kb_cors_origin
            (snd (scenario_scan
                    (fun _ => [("Access-Control-Allow-Origin", "*")])
                    (replicate 6 scenario_req) __init__)))
  = 7%nat.
Proof.
  unfold scenario_scan.
  apply (scan_wildcard_stores_all (list (string * string)) (fun _ => 1)
           (fun _ => true) (fun url _ => mkRequest url)
           (fun _ => [("Access-Control-Allow-Origin", "*")])
           scenario_header (fun _ => mret tt)
           (replicate 6 scenario_req)
           "http://w3af.sourceforge.net/" __init__ eq_refl);
    [discriminate|discriminate|reflexivity|apply not_elem_of_empty|].
  apply Forall_replicate. by repeat split.
Defined.

(** * What the returned findings carry *)

Lemma throttled_carries counter section sev v st (P : Vuln -> Prop) :
  P v -> P (summary_vuln v sev (summary_desc section)) ->
  Forall P (throttled counter section sev v st).
Proof.
  intros Hv Hs. unfold throttled.
  repeat case_bool_decide; repeat constructor; done.
Qed.

(** X15: every finding a method returns, its own or the summary the
    throttle builds from it, names the URL of the forged request and the
    id of the response.  Its severity is that of the table: the wildcard
    rule returns LOW findings and a MEDIUM summary, the echo rule HIGH or
    LOW findings (by the credentials header) and always a HIGH summary,
    the credentials rule INFORMATION and the methods rule LOW for both. *)
Theorem returned_findings_table req url origin resp ao ac am st :
  let carries (severity_of : Vuln -> Severity) (r : Outcome (list Vuln)) :=
    match r with
    | Return l =>
        Forall (fun v => getURL v = req_getURL req
                         /\ getId v = resp_getId resp
                         /\ getSeverity v = severity_of v) l
    | Raise _ => True
    end in
  carries (fun v => if is_summary v then MEDIUM else LOW)
    (fst (_universal_allow req url origin resp ao ac am st))
  /\ carries (fun v => if is_summary v then HIGH
                       else if credentials_allowed ac then HIGH else LOW)
       (fst (_origin_echo req url origin resp ao ac am st))
  /\ carries (fun _ => INFORMATION)
       (fst (_universal_origin_allow_creds req url origin resp ao ac am st))
  /\ carries (fun _ => LOW)
       (fst (_allow_methods req url origin resp ao ac am st)).
Proof.
  cbv zeta. split; [|split; [|split]].
  - destruct (universal_allow_run req url origin resp ao ac am) as [d E].
    rewrite E. case_bool_decide; [|constructor].
    rewrite filter_report_logged. by apply throttled_carries.
  - destruct (origin_echo_run req url origin resp ao ac am) as [d E].
    rewrite E.
    destruct (match ao with
              | Some a => Py.contains origin (Py.lower a)
              | None => false
              end); [|constructor].
    rewrite filter_report_logged.
    apply throttled_carries; by destruct (credentials_allowed ac).
  - destruct (universal_origin_allow_creds_run req url origin resp ao ac am)
      as [d E].
    rewrite E. destruct (_ && _); [|constructor].
    rewrite filter_report_logged. by apply throttled_carries.
  - destruct am as [a|]; [|constructor].
    rewrite allow_methods_run. destruct (methods_fire a); [|constructor].
    destruct (Py.format _ _) as [desc|]; [|done].
    cbv zeta. rewrite filter_report_logged. by apply throttled_carries.
Qed.

(** * The options *)

Lemma set_origin_same st :
  snd (set_origin_header_value (origin_header_value st) st) = st.
Proof. by destruct st. Qed.

(** X16: the options round trip.  [get_options] changes nothing and
    lists one option, named [origin_header_value], whose value is the
    configured origin; giving that value back to [set_options] leaves the
    state as it was, and is accepted exactly when the origin is a string
    that is not all whitespace.  Whatever value [set_options] is given,
    accepted or not, is the value [get_options] shows next. *)
Theorem options_round_trip st :
  exists o,
    get_options st = (Return [o], st)
    /\ option_list_get [o] "origin_header_value" = Some o
    /\ opt_getValue o = origin_header_value st
    /\ snd (set_options (opt_getValue o) st) = st
    /\ (fst (set_options (opt_getValue o) st) = Return tt
        <-> exists s, origin_header_value st = Some s /\ all_space s = false)
    /\ forall value,
         exists o',
           fst (get_options (snd (set_options value st))) = Return [o']
           /\ opt_getValue o' = value.
Proof.
  eexists. split; [reflexivity|]. split; [reflexivity|].
  split; [reflexivity|]. cbn [opt_getValue].
  assert (R : forall value,
            set_options value st
            = (match value with
               | Some s => if bool_decide (String.length (Py.strip s) = 0%nat)
                           then Raise (w3afException set_options_msg)
                           else Return tt
               | None => Raise (w3afException set_options_msg)
               end, snd (set_origin_header_value value st))).
  { intros value. unfold set_options. rewrite bind_run. cbn.
    destruct value as [s|]; [|reflexivity].
    rewrite bind_run. cbn. by case_bool_decide. }
  split; [by rewrite R, set_origin_same|].
  split.
  - rewrite R. cbn [fst]. destruct (origin_header_value st) as [s|].
    + case_bool_decide as Hs; rewrite length_zero_empty, strip_empty in Hs.
      * split; [discriminate|]. intros (s' & [= <-] & K). congruence.
      * split; [|done]. intros _. exists s. split; [done|].
        by destruct (all_space s).
    + split; [discriminate|]. by intros (s & ? & _).
  - intros value. rewrite R. eexists. split; reflexivity.
Qed.
